(** * Old Tree inventory: the movement ledger and its browser client

    The repository holds the browser client ([script.js], with an earlier
    revision of the same script) and a walkthrough of the whole system that
    quotes the backend's [StockMovement.save] method.  This development
    embeds

    - [Backend]: the quoted [StockMovement.save] (balance row plus movement
      log inside [transaction.atomic()]), sequentially and under an
      interleaving of two requests;
    - [Client]: [fetchAndPopulateTable] and [handleFormSubmit] of
      [script.js], as programs in a small monad with DOM state, exceptions
      and a trace of the observable calls;
    - [Legacy]: the same two functions of the earlier revision.  *)

From Stdlib Require Import ZArith String Ascii.
From stdpp Require Import base option list gmap strings pretty sorting.

Local Open Scope Z_scope.

(* ===================================================================== *)
(** * The backend: [StockMovement.save]                                   *)
(* ===================================================================== *)

Module Backend.

(** Primary keys of the reference tables. *)
Definition VariantId := Z.
Definition LocationId := Z.

(** A [StockLevel] row is found by its (variant, location) pair. *)
Definition Key : Type := VariantId * LocationId.

(** The fields of a [StockMovement] that [save] reads or writes. *)
Record StockMovement := mkMovement {
  product_variant : VariantId;
  location : LocationId;
  quantity_change : Z;
  notes : string
}.

Definition key (m : StockMovement) : Key := (product_variant m, location m).

(** The two tables [save] touches: [StockLevel] rows by key and the
    append-only [StockMovement] log, oldest first. *)
Record Database := mkDb {
  stock_levels : gmap Key Z;
  movements : list StockMovement
}.

Definition empty_db : Database := mkDb ∅ [].

(** The statements of [save] that reach the database; each of them may
    raise. *)
Inductive DbOp := OpGetOrCreate | OpSaveStockLevel | OpInsertMovement.

(** Which statements raise in one call of [save]. *)
Definition Faults := DbOp → bool.

Definition no_faults : Faults := λ _, false.

Inductive DbError := DatabaseError (op : DbOp).

Inductive Outcome (A : Type) := Ok (a : A) | Raised (e : DbError).
Arguments Ok {A} a.
Arguments Raised {A} e.

(** Database code: reads the fault oracle, threads the database, may
    raise. *)
Definition Tx (A : Type) : Type := Faults → Database → Outcome A * Database.

Definition tx_ret {A} (a : A) : Tx A := λ _ db, (Ok a, db).

Definition tx_bind {A B} (c : Tx A) (k : A → Tx B) : Tx B :=
  λ f db, match c f db with
          | (Ok a, db') => k a f db'
          | (Raised e, db') => (Raised e, db')
          end.

#[export] Instance tx_mret : MRet Tx := @tx_ret.
#[export] Instance tx_mbind : MBind Tx := λ A B k c, tx_bind c k.

(** A statement that raises has no effect of its own. *)
Definition guarded {A} (op : DbOp) (c : Database → A * Database) : Tx A :=
  λ f db, if f op then (Raised (DatabaseError op), db)
          else let '(a, db') := c db in (Ok a, db').

(** [with transaction.atomic(): body]: when the body raises, the database
    is rolled back to where the block was entered and the exception goes
    on. *)
Definition atomic {A} (body : Tx A) : Tx A :=
  λ f db, match body f db with
          | (Ok a, db') => (Ok a, db')
          | (Raised e, _) => (Raised e, db)
          end.

(** [StockLevel.objects.get_or_create(product_variant=, location=,
    defaults={'quantity': 0})]: the row's quantity; a missing row is
    inserted with the default. *)
Definition get_or_create (k : Key) (default_quantity : Z) : Tx Z :=
  guarded OpGetOrCreate (λ db,
    match stock_levels db !! k with
    | Some q => (q, db)
    | None => (default_quantity,
               mkDb (<[k := default_quantity]> (stock_levels db)) (movements db))
    end).

(** [stock_level.save()]: writes the in-memory quantity to the row. *)
Definition save_stock_level (k : Key) (q : Z) : Tx unit :=
  guarded OpSaveStockLevel (λ db,
    (tt, mkDb (<[k := q]> (stock_levels db)) (movements db))).

(** [super().save(...)] on a new movement: one row appended to
    the log. *)
Definition insert_movement (m : StockMovement) : Tx unit :=
  guarded OpInsertMovement (λ db,
    (tt, mkDb (stock_levels db) (movements db ++ [m]))).

(** The body of the [with] block. *)
Definition save_body (m : StockMovement) : Tx unit :=
  stock_level ← get_or_create (key m) 0;
  let stock_level := stock_level + quantity_change m in
  save_stock_level (key m) stock_level;;
  insert_movement m.

(** [StockMovement.save]. *)
Definition save (m : StockMovement) : Tx unit := atomic (save_body m).

(** The quantity on hand for a key; a key without a row counts as the
    baseline 0 it would be created with. *)
Definition balance_of (db : Database) (k : Key) : Z :=
  default 0 (stock_levels db !! k).

(** Sum of the deltas of the movements recorded for a key. *)
Definition ledger_sum (k : Key) (ms : list StockMovement) : Z :=
  foldr (λ m acc, if decide (key m = k) then quantity_change m + acc else acc) 0 ms.

(** Both effects of one movement, applied to a database. *)
Definition applied (m : StockMovement) (db : Database) : Database :=
  mkDb (<[key m := balance_of db (key m) + quantity_change m]> (stock_levels db))
       (movements db ++ [m]).

(** ** A run of requests, one after the other *)

(** Each request comes with the faults its statements meet.  The run
    returns the database and the movements whose [save] returned
    normally, oldest first. *)
Fixpoint run_saves (ops : list (Faults * StockMovement)) (db : Database)
  : Database * list StockMovement :=
  match ops with
  | [] => (db, [])
  | (f, m) :: ops' =>
      match save m f db with
      | (Ok _, db') => let '(db'', acc) := run_saves ops' db' in (db'', m :: acc)
      | (Raised _, db') => run_saves ops' db'
      end
  end.

(** ** Two or more requests at once

    [save] takes no row lock ([select_for_update]) and writes back the
    quantity it computed in memory.  The database runs each statement as
    a unit, but at its default isolation level a transaction does not
    keep the statements of another from running between its own.  A
    request is at one of four points. *)
Inductive Pc :=
| AtGetOrCreate
| AtStockLevelSave (quantity : Z)
| AtSuperSave
| Committed.

Record Request := mkRequest { movement : StockMovement; pc : Pc }.

Definition submitted (m : StockMovement) : Request := mkRequest m AtGetOrCreate.

(** One statement of one request against the shared database.  At
    [AtStockLevelSave q] the in-memory [stock_level.quantity] is [q], as
    [get_or_create] returned it; the step does the [+=] and
    [stock_level.save()]. *)
Definition step_request (r : Request) (db : Database) : Request * Database :=
  let m := movement r in
  match pc r with
  | AtGetOrCreate =>
      match get_or_create (key m) 0 no_faults db with
      | (Ok q, db') => (mkRequest m (AtStockLevelSave q), db')
      | (Raised _, db') => (r, db')
      end
  | AtStockLevelSave q =>
      match save_stock_level (key m) (q + quantity_change m) no_faults db with
      | (_, db') => (mkRequest m AtSuperSave, db')
      end
  | AtSuperSave =>
      match insert_movement m no_faults db with
      | (_, db') => (mkRequest m Committed, db')
      end
  | Committed => (r, db)
  end.

Record System := mkSystem { shared : Database; requests : list Request }.

(** The scheduler lets request [i] run its next statement. *)
Definition step (i : nat) (s : System) : System :=
  match requests s !! i with
  | Some r => let '(r', db') := step_request r (shared s) in
              mkSystem db' (<[i := r']> (requests s))
  | None => s
  end.

Definition run_schedule (schedule : list nat) (s : System) : System :=
  foldl (λ s i, step i s) s schedule.

Definition all_committed (s : System) : bool :=
  forallb (λ r, match pc r with Committed => true | _ => false end) (requests s).

(** ** Validation in front of [save]

    The walkthrough says that a serializer validates the posted JSON and
    that only valid data reaches [save].  Neither the serializer nor the
    view that calls it is in the repository; what follows stands for
    them. *)



(** Modelled from the spec: the reading of an integer from posted text
    (section 4.1: the quantity "must be a ... integer", the ids must
    reference entities), done by the absent serializer: decimal digits
    after an optional minus sign. *)
Definition digit_of (c : ascii) : option Z :=
  let n := Z.of_nat (nat_of_ascii c) in
  if (48 <=? n) && (n <=? 57) then Some (n - 48) else None.

(** Modelled from the spec: the digits of an integer, for the absent
    serializer (see [digit_of]). *)
Fixpoint parse_digits (acc : Z) (s : string) : option Z :=
  match s with
  | EmptyString => Some acc
  | String c s' => match digit_of c with
                   | Some d => parse_digits (10 * acc + d) s'
                   | None => None
                   end
  end.

(** Modelled from the spec: an integer as text, for the absent serializer
    (see [digit_of]); the empty text and a lone sign are no integers. *)
Definition parse_int (s : string) : option Z :=
  match s with
  | EmptyString => None
  | String "-"%char EmptyString => None
  | String "-"%char s' => Z.opp <$> parse_digits 0 s'
  | _ => parse_digits 0 s
  end.



End Backend.

(* ===================================================================== *)
(** * The browser: DOM state, exceptions, observable calls                *)
(* ===================================================================== *)

Module Browser.

(** JSON values, as [response.json()] yields them and [JSON.stringify]
    consumes them.  A request body stands for the text that
    [JSON.stringify] makes of it. *)
#[warnings="-register-all"]
Inductive json :=
| JNull
| JBool (b : bool)
| JNumber (n : Z)
| JString (s : string)
| JArray (items : list json)
| JObject (properties : list (string * json)).

(** One element of the [GET /api/stock-levels/] array. *)
Record ProductVariant := mkVariant { product : string; size : string; color : string }.
Record Location := mkLocation { name : string }.
Record StockLevel := mkStockLevel {
  product_variant : ProductVariant;
  location : Location;
  quantity : Z
}.

(** A row of the stock table: the text of its four cells, or one message
    cell spanning them. *)
Inductive TableRow :=
| DataRow (product_cell variant_cell location_cell quantity_cell : string)
| MessageRow (colspan : Z) (text : string).

(** The movement form: its current entries as [new FormData(form)] lists
    them, and the entries [reset()] puts back. *)
Record FormElement := mkForm {
  entries : list (string * string);
  initial_entries : list (string * string)
}.

(** The elements the script holds and the properties it writes. *)
Record Dom := mkDom {
  stockTableBody_innerHTML : list TableRow;
  stockTableBody_display : string;
  loadingSpinner_display : string;
  emptyState_display : string;
  submitButton_disabled : bool;
  submitButton_innerHTML : string;
  submitButton_aria_busy : option string;
  movementForm : FormElement
}.

Inductive ErrorMessage :=
| Text (s : string)
| JsonText (prefix : string) (j : json).

Inductive JsError :=
| FetchFailed
| JsonSyntaxError
| Error (message : ErrorMessage).

Record RequestInit := mkInit {
  method : string;
  headers : list (string * string);
  body : json
}.

Record SwalOptions := mkSwal {
  icon : string;
  title : string;
  text : option string;
  showConfirmButton : option bool;
  timer : option Z
}.

(** Calls that leave the script. *)
Inductive Event :=
| PreventDefault
| Fetch (url : string) (init : option RequestInit)
| ConsoleError (label : string) (error : JsError)
| SwalFire (options : SwalOptions)
| Alert (message : string).

(** A call together with the page as it stood when the call was made:
    while the script awaits, this is what the user sees. *)
Record Observation := mkObs { event : Event; page : Dom }.

(** What one [fetch] meets: the promise rejects, or it resolves to a
    response with its [ok] flag and the value [response.json()] resolves
    to ([None] when that rejects). *)
Inductive Reply (A : Type) :=
| Rejects
| Resolves (ok : bool) (json_result : option A).
Arguments Rejects {A}.
Arguments Resolves {A} ok json_result.

(** The replies the server will give, per endpoint, in order.  Bodies are
    typed by the API's contract. *)
Record Server := mkServer {
  stock_levels_replies : list (Reply (list StockLevel));
  stock_movements_replies : list (Reply json)
}.

Record World := mkWorld { dom : Dom; server : Server; trace : list Observation }.

Definition page_with (d : Dom) (s : Server) : World := mkWorld d s [].

Inductive Completion (A : Type) := Normal (a : A) | Throw (e : JsError).
Arguments Normal {A} a.
Arguments Throw {A} e.

Definition JS (A : Type) : Type := World → Completion A * World.

Definition js_ret {A} (a : A) : JS A := λ w, (Normal a, w).

Definition js_bind {A B} (c : JS A) (k : A → JS B) : JS B :=
  λ w, match c w with
       | (Normal a, w') => k a w'
       | (Throw e, w') => (Throw e, w')
       end.

#[export] Instance js_mret : MRet JS := @js_ret.
#[export] Instance js_mbind : MBind JS := λ A B k c, js_bind c k.

Definition throw {A} (e : JsError) : JS A := λ w, (Throw e, w).

(** [try { body } catch (error) { handler }] *)
Definition try_catch {A} (body : JS A) (handler : JsError → JS A) : JS A :=
  λ w, match body w with
       | (Normal a, w') => (Normal a, w')
       | (Throw e, w') => handler e w'
       end.

(** [try { body } finally { cleanup }]: the cleanup always runs; the
    body's completion stands unless the cleanup itself throws. *)
Definition try_finally {A} (body : JS A) (cleanup : JS unit) : JS A :=
  λ w, match body w with
       | (c, w') => match cleanup w' with
                    | (Normal _, w'') => (c, w'')
                    | (Throw e, w'') => (Throw e, w'')
                    end
       end.

Definition try_catch_finally {A} (body : JS A) (handler : JsError → JS A)
    (cleanup : JS unit) : JS A :=
  try_finally (try_catch body handler) cleanup.

Definition emit (e : Event) : JS unit :=
  λ w, (Normal tt, mkWorld (dom w) (server w) (trace w ++ [mkObs e (dom w)])).

Definition update_dom (f : Dom → Dom) : JS unit :=
  λ w, (Normal tt, mkWorld (f (dom w)) (server w) (trace w)).

Definition read_dom {A} (f : Dom → A) : JS A := λ w, (Normal (f (dom w)), w).

(** Property writes. *)
Definition set_stockTableBody_innerHTML (v : list TableRow) (d : Dom) : Dom :=
  mkDom v (stockTableBody_display d) (loadingSpinner_display d) (emptyState_display d)
        (submitButton_disabled d) (submitButton_innerHTML d) (submitButton_aria_busy d)
        (movementForm d).
Definition set_stockTableBody_display (v : string) (d : Dom) : Dom :=
  mkDom (stockTableBody_innerHTML d) v (loadingSpinner_display d) (emptyState_display d)
        (submitButton_disabled d) (submitButton_innerHTML d) (submitButton_aria_busy d)
        (movementForm d).
Definition set_loadingSpinner_display (v : string) (d : Dom) : Dom :=
  mkDom (stockTableBody_innerHTML d) (stockTableBody_display d) v (emptyState_display d)
        (submitButton_disabled d) (submitButton_innerHTML d) (submitButton_aria_busy d)
        (movementForm d).
Definition set_emptyState_display (v : string) (d : Dom) : Dom :=
  mkDom (stockTableBody_innerHTML d) (stockTableBody_display d) (loadingSpinner_display d) v
        (submitButton_disabled d) (submitButton_innerHTML d) (submitButton_aria_busy d)
        (movementForm d).
Definition set_submitButton_disabled (v : bool) (d : Dom) : Dom :=
  mkDom (stockTableBody_innerHTML d) (stockTableBody_display d) (loadingSpinner_display d)
        (emptyState_display d) v (submitButton_innerHTML d) (submitButton_aria_busy d)
        (movementForm d).
Definition set_submitButton_innerHTML (v : string) (d : Dom) : Dom :=
  mkDom (stockTableBody_innerHTML d) (stockTableBody_display d) (loadingSpinner_display d)
        (emptyState_display d) (submitButton_disabled d) v (submitButton_aria_busy d)
        (movementForm d).
Definition set_submitButton_aria_busy (v : option string) (d : Dom) : Dom :=
  mkDom (stockTableBody_innerHTML d) (stockTableBody_display d) (loadingSpinner_display d)
        (emptyState_display d) (submitButton_disabled d) (submitButton_innerHTML d) v
        (movementForm d).
Definition set_movementForm (v : FormElement) (d : Dom) : Dom :=
  mkDom (stockTableBody_innerHTML d) (stockTableBody_display d) (loadingSpinner_display d)
        (emptyState_display d) (submitButton_disabled d) (submitButton_innerHTML d)
        (submitButton_aria_busy d) v.

(** [stockTableBody.innerHTML += row] *)
Definition append_row (row : TableRow) : JS unit :=
  update_dom (λ d, set_stockTableBody_innerHTML (stockTableBody_innerHTML d ++ [row]) d).

(** [movementForm.reset()] *)
Definition reset (f : FormElement) : FormElement :=
  mkForm (initial_entries f) (initial_entries f).

Definition movementForm_reset : JS unit :=
  update_dom (λ d, set_movementForm (reset (movementForm d)) d).

(** [new FormData(movementForm)] and [formData.get(name)]: the first entry
    of that name, [null] when there is none. *)
Definition FormData := list (string * string).

Definition new_FormData : JS FormData := read_dom (λ d, entries (movementForm d)).

Fixpoint FormData_get (field : string) (fd : FormData) : option string :=
  match fd with
  | [] => None
  | (k, v) :: fd' => if decide (k = field) then Some v else FormData_get field fd'
  end.

(** A JS object whose properties hold strings or [null], and what
    [JSON.stringify] sends for it. *)
Definition StringRecord := list (string * option string).

Definition JSON_stringify (o : StringRecord) : json :=
  JObject (map (λ '(k, v), (k, from_option JString JNull v)) o).

(** [fetch]: the call is observable; the reply is the next one the server
    has for that endpoint.  With no reply left the promise rejects. *)
Record Response (A : Type) := mkResponse { ok : bool; json_result : option A }.
Arguments mkResponse {A} ok json_result.
Arguments ok {A} r.
Arguments json_result {A} r.

Definition settle {A} (r : option (Reply A)) : Completion (Response A) :=
  match r with
  | Some (Resolves o j) => Normal (mkResponse o j)
  | Some Rejects | None => Throw FetchFailed
  end.

Definition fetch_stock_levels (url : string) : JS (Response (list StockLevel)) :=
  λ w, let w1 := mkWorld (dom w) (server w) (trace w ++ [mkObs (Fetch url None) (dom w)]) in
       let s := server w1 in
       (settle (head (stock_levels_replies s)),
        mkWorld (dom w1)
                (mkServer (tail (stock_levels_replies s)) (stock_movements_replies s))
                (trace w1)).

Definition fetch_stock_movements (url : string) (init : RequestInit) : JS (Response json) :=
  λ w, let w1 := mkWorld (dom w) (server w) (trace w ++ [mkObs (Fetch url (Some init)) (dom w)]) in
       let s := server w1 in
       (settle (head (stock_movements_replies s)),
        mkWorld (dom w1)
                (mkServer (stock_levels_replies s) (tail (stock_movements_replies s)))
                (trace w1)).

(** [await response.json()] *)
Definition response_json {A} (r : Response A) : JS A :=
  match json_result r with
  | Some v => mret v
  | None => throw JsonSyntaxError
  end.

Definition console_error (label : string) (error : JsError) : JS unit :=
  emit (ConsoleError label error).

Definition Swal_fire (options : SwalOptions) : JS unit := emit (SwalFire options).

Definition alert (message : string) : JS unit := emit (Alert message).

(** [array.forEach(f)] *)
Fixpoint forEach {A} (array : list A) (f : A → JS unit) : JS unit :=
  match array with
  | [] => mret tt
  | item :: rest => f item;; forEach rest f
  end.

(** [array.sort(compare)]: the sort is stable; for a consistent
    comparator the result is the one a stable insertion sort gives.  An
    element goes before the first one it does not compare greater than. *)
Fixpoint sort_insert {A} (compare : A → A → Z) (x : A) (sorted : list A) : list A :=
  match sorted with
  | [] => [x]
  | y :: rest => if compare x y <=? 0 then x :: y :: rest
                 else y :: sort_insert compare x rest
  end.

Definition array_sort {A} (compare : A → A → Z) (array : list A) : list A :=
  foldr (sort_insert compare) [] array.

(** Characters a string literal cannot hold directly. *)
Definition dq : string := String (ascii_of_nat 34) EmptyString.
Definition nl : string := String (ascii_of_nat 10) EmptyString.
Fixpoint spaces (n : nat) : string :=
  match n with O => EmptyString | S n' => String (ascii_of_nat 32) (spaces n') end.

End Browser.

(* ===================================================================== *)
(** * The client: [script.js]                                             *)
(* ===================================================================== *)

Module Client.
Import Browser.

Definition API_BASE_URL : string := "https://oldtree-api.onrender.com".

(** The two labels [handleFormSubmit] gives the submit button. *)
Definition submitting_label : string :=
  nl +:+ spaces 12 +:+ "<span class=" +:+ dq +:+ "spinner-border spinner-border-sm" +:+ dq
     +:+ " role=" +:+ dq +:+ "status" +:+ dq
     +:+ " aria-hidden=" +:+ dq +:+ "true" +:+ dq +:+ "></span>"
     +:+ nl +:+ spaces 12 +:+ "Submitting..." +:+ nl +:+ spaces 8.

Definition idle_label : string :=
  "<i class=" +:+ dq +:+ "bi bi-check-circle-fill" +:+ dq +:+ "></i> Submit Movement".

Definition stock_levels_url : string := API_BASE_URL +:+ "/api/stock-levels/".

Definition showLoading (isLoading : bool) : JS unit :=
  update_dom (set_loadingSpinner_display (if isLoading then "block" else "none"));;
  update_dom (set_stockTableBody_display (if isLoading then "none" else EmptyString)).

Definition showEmptyState (isEmpty : bool) : JS unit :=
  update_dom (set_emptyState_display (if isEmpty then "block" else "none")).

(** The row template of [fetchAndPopulateTable]. *)
Definition row_of (item : StockLevel) : TableRow :=
  DataRow (product (product_variant item))
          (size (product_variant item) +:+ " / " +:+ color (product_variant item))
          (name (location item))
          (pretty (quantity item)).

Definition load_failed_popup : SwalOptions :=
  mkSwal "error" "Failed to Load Stock Data"
    (Some "Could not connect to the server. Please try again later.")
    None None.

Section WithCollation.

(** [String.prototype.localeCompare]: negative, zero or positive; the
    collation is the browser's. *)
Variable localeCompare : string → string → Z.

(** The comparator handed to [stockLevels.sort]. *)
Definition by_product (a b : StockLevel) : Z :=
  localeCompare (product (product_variant a)) (product (product_variant b)).

Definition fetchAndPopulateTable : JS unit :=
  showLoading true;;
  showEmptyState false;;
  try_catch_finally
    (response ← fetch_stock_levels stock_levels_url;
     (if negb (ok response)
      then throw (Error (Text "Network response was not ok"))
      else mret tt);;
     stockLevels ← response_json response;
     update_dom (set_stockTableBody_innerHTML []);;
     if (length stockLevels =? 0)%nat then
       showEmptyState true
     else
       let stockLevels := array_sort by_product stockLevels in
       forEach stockLevels (λ item,
         let row := row_of item in
         append_row row))
    (λ error,
       console_error "Error fetching stock levels:" error;;
       Swal_fire load_failed_popup;;
       showEmptyState true)
    (showLoading false).

Definition success_popup : SwalOptions :=
  mkSwal "success" "Movement Registered!" None (Some false) (Some 1500).

Definition failure_popup : SwalOptions :=
  mkSwal "error" "Submission Failed"
    (Some "There was an error submitting the movement. Please check the data and try again.")
    None None.

(** The object literal [data] of [handleFormSubmit]. *)
Definition movement_data (formData : FormData) : StringRecord :=
  [ ("product_variant", FormData_get "product_variant" formData);
    ("location", FormData_get "location" formData);
    ("quantity_change", FormData_get "quantity_change" formData);
    ("notes", FormData_get "notes" formData) ].

Definition stock_movements_url : string := API_BASE_URL +:+ "/api/stock-movements/".

Definition post_init (data : StringRecord) : RequestInit :=
  mkInit "POST" [("Content-Type", "application/json")] (JSON_stringify data).

Definition handleFormSubmit : JS unit :=
  emit PreventDefault;;
  update_dom (set_submitButton_disabled true);;
  update_dom (set_submitButton_innerHTML submitting_label);;
  formData ← new_FormData;
  let data := movement_data formData in
  try_catch_finally
    (response ← fetch_stock_movements stock_movements_url (post_init data);
     (if negb (ok response)
      then errorData ← response_json response;
           throw (Error (JsonText EmptyString errorData))
      else mret tt);;
     movementForm_reset;;
     fetchAndPopulateTable;;
     Swal_fire success_popup)
    (λ error,
       console_error "Form submission error:" error;;
       Swal_fire failure_popup)
    (update_dom (set_submitButton_disabled false);;
     update_dom (set_submitButton_innerHTML idle_label)).

End WithCollation.

End Client.

(* ===================================================================== *)
(** * The earlier revision of the script                                  *)
(* ===================================================================== *)

Module Legacy.
Import Browser.

Definition API_BASE_URL : string := "https://oldtree-api.onrender.com".

Definition stock_levels_url : string := API_BASE_URL +:+ "/api/stock-levels/".

Definition no_data_row : TableRow := MessageRow 4 "No stock data found.".

Definition load_failed_row : TableRow :=
  MessageRow 4 "Failed to load data. Please try again later.".

Definition row_of (item : StockLevel) : TableRow :=
  DataRow (product (product_variant item))
          ("Size: " +:+ size (product_variant item)
             +:+ ", Color: " +:+ color (product_variant item))
          (name (location item))
          (pretty (quantity item)).

(** This revision has no [sort] call: the rows follow the response. *)
Definition fetchAndPopulateTable : JS unit :=
  try_catch
    (response ← fetch_stock_levels stock_levels_url;
     (if negb (ok response)
      then throw (Error (Text "Network response was not ok"))
      else mret tt);;
     stockLevels ← response_json response;
     update_dom (set_stockTableBody_innerHTML []);;
     if (length stockLevels =? 0)%nat then
       update_dom (set_stockTableBody_innerHTML [no_data_row])
     else
       forEach stockLevels (λ item,
         let row := row_of item in
         append_row row))
    (λ error,
       console_error "Error fetching stock levels:" error;;
       update_dom (set_stockTableBody_innerHTML [load_failed_row])).

Definition movement_data (formData : FormData) : StringRecord :=
  [ ("product_variant", FormData_get "product_variant" formData);
    ("location", FormData_get "location" formData);
    ("quantity_change", FormData_get "quantity_change" formData);
    ("notes", FormData_get "notes" formData) ].

Definition stock_movements_url : string := API_BASE_URL +:+ "/api/stock-movements/".

Definition post_init (data : StringRecord) : RequestInit :=
  mkInit "POST" [("Content-Type", "application/json")] (JSON_stringify data).

Definition failure_alert : string :=
  "There was an error submitting the movement. Please check the console for details.".

Definition handleFormSubmit : JS unit :=
  emit PreventDefault;;
  update_dom (set_submitButton_aria_busy (Some "true"));;
  update_dom (set_submitButton_disabled true);;
  formData ← new_FormData;
  let data := movement_data formData in
  try_catch_finally
    (response ← fetch_stock_movements stock_movements_url (post_init data);
     (if negb (ok response)
      then errorData ← response_json response;
           throw (Error (JsonText "Failed to submit movement: " errorData))
      else mret tt);;
     movementForm_reset;;
     fetchAndPopulateTable)
    (λ error,
       console_error "Form submission error:" error;;
       alert failure_alert)
    (update_dom (set_submitButton_aria_busy None);;
     update_dom (set_submitButton_disabled false)).

End Legacy.

(* ===================================================================== *)
(** * Vocabulary of the statements, and sample data                       *)
(* ===================================================================== *)

Module Observing.
Import Browser.

(** The submit button and the movement form are the same on two pages. *)
Definition same_controls (d d' : Dom) : Prop :=
  submitButton_disabled d' = submitButton_disabled d ∧
  submitButton_innerHTML d' = submitButton_innerHTML d ∧
  submitButton_aria_busy d' = submitButton_aria_busy d ∧
  movementForm d' = movementForm d.

(** The server confirms the next [POST /api/stock-movements/]. *)
Definition post_confirmed (s : Server) : bool :=
  match head (stock_movements_replies s) with
  | Some (Resolves true _) => true
  | _ => false
  end.

(** The button as it is while a submission is pending. *)
Definition button_busy (label : string) (d : Dom) : Prop :=
  submitButton_disabled d = true ∧ submitButton_innerHTML d = label.

(** Nondecreasing product names under a comparator. *)
Definition product_le (localeCompare : string → string → Z) (a b : StockLevel) : Prop :=
  localeCompare (product (product_variant a)) (product (product_variant b)) <= 0.

(** The page while [fetchAndPopulateTable] awaits the listing: spinner
    on, table body and empty state hidden. *)
Definition loading_page (d : Dom) : Dom :=
  set_emptyState_display "none"
    (set_stockTableBody_display "none" (set_loadingSpinner_display "block" d)).

(** The page after [showLoading(false)]. *)
Definition shown (d : Dom) : Dom :=
  set_stockTableBody_display EmptyString (set_loadingSpinner_display "none" d).

(** The page while [handleFormSubmit] awaits the server. *)
Definition busy_page (d : Dom) : Dom :=
  set_submitButton_innerHTML Client.submitting_label (set_submitButton_disabled true d).

(** The page after [movementForm.reset()]. *)
Definition cleared_page (d : Dom) : Dom :=
  set_movementForm (reset (movementForm d)) d.

(** The page after the [finally] block of [handleFormSubmit]. *)
Definition idle_page (d : Dom) : Dom :=
  set_submitButton_innerHTML Client.idle_label (set_submitButton_disabled false d).

(** The exception a reply to [GET /api/stock-levels/] leads to, if any. *)
Definition load_error (r : option (Reply (list StockLevel))) : option JsError :=
  match r with
  | None | Some Rejects => Some FetchFailed
  | Some (Resolves false _) => Some (Error (Text "Network response was not ok"))
  | Some (Resolves true None) => Some JsonSyntaxError
  | Some (Resolves true (Some _)) => None
  end.

(** The exception a reply to the POST leads to, if any; [prefix] is what
    the script puts before the error payload. *)
Definition submit_error (prefix : string) (r : option (Reply json)) : option JsError :=
  match r with
  | None | Some Rejects => Some FetchFailed
  | Some (Resolves false None) => Some JsonSyntaxError
  | Some (Resolves false (Some j)) => Some (Error (JsonText prefix j))
  | Some (Resolves true _) => None
  end.

Definition is_fetch (e : Event) : bool :=
  match e with Fetch _ _ => true | _ => false end.

(** A [fetch] with an [init] argument; the scripts have one, the POST. *)
Definition is_post (e : Event) : bool :=
  match e with Fetch _ (Some _) => true | _ => false end.

Definition is_popup (e : Event) : bool :=
  match e with SwalFire _ | Alert _ => true | _ => false end.

(** The POST [handleFormSubmit] sends from a page. *)
Definition post_of (d : Dom) : Event :=
  Fetch Client.stock_movements_url
    (Some (Client.post_init (Client.movement_data (entries (movementForm d))))).

(** What a form holds under a name: [Some v] when [v] is the value of the
    first entry of that name, [None] when no entry has the name. *)
Definition field_value (form_entries : list (string * string)) (field : string)
    (v : option string) : Prop :=
  match v with
  | Some x => ∃ before after,
      form_entries = before ++ (field, x) :: after ∧ field ∉ before.*1
  | None => field ∉ form_entries.*1
  end.

(** The same pages and request in the earlier revision. *)
Definition legacy_busy_page (d : Dom) : Dom :=
  set_submitButton_disabled true (set_submitButton_aria_busy (Some "true") d).

Definition legacy_idle_page (d : Dom) : Dom :=
  set_submitButton_disabled false (set_submitButton_aria_busy None d).

Definition legacy_post_of (d : Dom) : Event :=
  Fetch Legacy.stock_movements_url
    (Some (Legacy.post_init (Legacy.movement_data (entries (movementForm d))))).

End Observing.

Module Scenario.
Import Backend.

Definition opening : StockMovement := mkMovement 1 1 5 "opening count".
Definition restock : StockMovement := mkMovement 1 1 10 "restock".
Definition sale : StockMovement := mkMovement 1 1 (-3) "sale".
Definition nothing : StockMovement := mkMovement 1 1 0 "no change".

(** A database that already holds one movement and its balance. *)
Definition db_opening : Database := mkDb {[ (1, 1) := 5 ]} [opening].

(** Two requests for the same key arrive together. *)
Definition racing : System := mkSystem db_opening [submitted restock; submitted sale].

(** Both requests read the row, then each in turn writes and commits. *)
Definition interleaved : list nat := [0; 1; 0; 0; 1; 1]%nat.

(** One request after the other. *)
Definition serial : list nat := [0; 0; 0; 1; 1; 1]%nat.

(** The insert of the movement fails; everything before it succeeds. *)
Definition insert_fails : Faults :=
  λ op, match op with OpInsertMovement => true | _ => false end.



End Scenario.

Module ClientScenario.
Import Browser.

(** Code-unit order, standing in for a browser's collation. *)
Definition code_unit_compare (a b : string) : Z :=
  match String.compare a b with Lt => -1 | Eq => 0 | Gt => 1 end.

Definition filled_form : FormElement :=
  mkForm [ ("product_variant", "3"); ("location", "1");
           ("quantity_change", "-2"); ("notes", "sold at the fair") ]
         [ ("quantity_change", EmptyString); ("notes", EmptyString) ].

(** The text typed for the quantity is not a number. *)
Definition odd_form : FormElement :=
  mkForm [ ("product_variant", "3"); ("location", "1");
           ("quantity_change", "a dozen"); ("notes", EmptyString) ]
         [ ("quantity_change", EmptyString); ("notes", EmptyString) ].

Definition page_at_rest (f : FormElement) : Dom :=
  mkDom [] EmptyString "none" "none" false Client.idle_label None f.

Definition oak : StockLevel :=
  mkStockLevel (mkVariant "Oak Tee" "M" "Green") (mkLocation "Warehouse") 7.
Definition birch : StockLevel :=
  mkStockLevel (mkVariant "Birch Hoodie" "L" "Grey") (mkLocation "Shop") 2.
Definition cedar : StockLevel :=
  mkStockLevel (mkVariant "Cedar Cap" "One" "Brown") (mkLocation "Warehouse") (-1).

Definition listing : list StockLevel := [oak; birch; cedar].

Definition field_errors : json :=
  JObject [("quantity_change", JArray [JString "A valid integer is required."])].

(** The POST is confirmed and the listing is served. *)
Definition server_up : Server :=
  mkServer [Resolves true (Some listing)] [Resolves true (Some JNull)].

(** The POST is answered with a validation error payload. *)
Definition server_rejecting : Server :=
  mkServer [Resolves true (Some listing)] [Resolves false (Some field_errors)].

(** Nothing answers. *)
Definition server_down : Server := mkServer [] [].

Definition server_empty_listing : Server := mkServer [Resolves true (Some [])] [].

End ClientScenario.

(* ===================================================================== *)
(** * The selection inputs: [fetchAndPopulateDropdowns]                   *)
(* ===================================================================== *)

(** One element of the [GET /api/variants/] array. *)
Module Variant.
Record t := mk {
  id : Z;
  product : string;
  size : string;
  color : string;
  unique_sku : string
}.
End Variant.

(** One element of the [GET /api/locations/] array. *)
Module Location.
Record t := mk { id : Z; name : string }.
End Location.

Module Dropdowns.
Import Browser.

Definition API_BASE_URL : string := "https://oldtree-api.onrender.com".

(** An [<option>] of a select: its attributes and its text. *)
Record OptionElement := mkOption {
  value : string;
  disabled : bool;
  selected : bool;
  label : string
}.

(** The two selects of the movement form, by the options they hold. *)
Record Selects := mkSelects {
  variantSelect_innerHTML : list OptionElement;
  locationSelect_innerHTML : list OptionElement
}.

Record ReferenceServer := mkReferenceServer {
  variants_replies : list (Reply (list Variant.t));
  locations_replies : list (Reply (list Location.t))
}.

(** The selects, the replies still to come, and the calls made so far. *)
Record FormWorld := mkFormWorld {
  selects : Selects;
  reference_server : ReferenceServer;
  calls : list Event
}.

Definition form_with (s : Selects) (srv : ReferenceServer) : FormWorld :=
  mkFormWorld s srv [].

Definition Prog (A : Type) : Type := FormWorld → Completion A * FormWorld.

Definition prog_ret {A} (a : A) : Prog A := λ w, (Normal a, w).

Definition prog_bind {A B} (c : Prog A) (k : A → Prog B) : Prog B :=
  λ w, match c w with
       | (Normal a, w') => k a w'
       | (Throw e, w') => (Throw e, w')
       end.

#[export] Instance prog_mret : MRet Prog := @prog_ret.
#[export] Instance prog_mbind : MBind Prog := λ A B k c, prog_bind c k.

Definition raise {A} (e : JsError) : Prog A := λ w, (Throw e, w).

Definition attempt {A} (body : Prog A) (handler : JsError → Prog A) : Prog A :=
  λ w, match body w with
       | (Normal a, w') => (Normal a, w')
       | (Throw e, w') => handler e w'
       end.

Definition call (e : Event) : Prog unit :=
  λ w, (Normal tt, mkFormWorld (selects w) (reference_server w) (calls w ++ [e])).

Definition update_selects (f : Selects → Selects) : Prog unit :=
  λ w, (Normal tt, mkFormWorld (f (selects w)) (reference_server w) (calls w)).

Definition set_variantSelect_innerHTML (v : list OptionElement) (s : Selects) : Selects :=
  mkSelects v (locationSelect_innerHTML s).

Definition set_locationSelect_innerHTML (v : list OptionElement) (s : Selects) : Selects :=
  mkSelects (variantSelect_innerHTML s) v.

(** A promise that has settled: fulfilled with a value or rejected. *)
Definition Promise (A : Type) : Type := Completion A.

(** [fetch(url)]: the request goes out when [fetch] is called; what comes
    back is a promise. *)
Definition fetch_variants (url : string) : Prog (Promise (Response (list Variant.t))) :=
  λ w, let s := reference_server w in
       (Normal (settle (head (variants_replies s))),
        mkFormWorld (selects w)
          (mkReferenceServer (tail (variants_replies s)) (locations_replies s))
          (calls w ++ [Fetch url None])).

Definition fetch_locations (url : string) : Prog (Promise (Response (list Location.t))) :=
  λ w, let s := reference_server w in
       (Normal (settle (head (locations_replies s))),
        mkFormWorld (selects w)
          (mkReferenceServer (variants_replies s) (tail (locations_replies s)))
          (calls w ++ [Fetch url None])).

(** [await Promise.all([p, q])]: both values, or the rejection of one that
    rejected.  When both reject, which of the two reasons is thrown
    depends on timing; here the first's is taken. *)
Definition await_all {A B} (p : Promise A) (q : Promise B) : Prog (A * B) :=
  match p, q with
  | Normal a, Normal b => mret (a, b)
  | Throw e, _ => raise e
  | _, Throw e => raise e
  end.

(** [await response.json()] *)
Definition json_of {A} (r : Response A) : Prog A :=
  match json_result r with
  | Some v => mret v
  | None => raise JsonSyntaxError
  end.

Fixpoint for_each {A} (array : list A) (f : A → Prog unit) : Prog unit :=
  match array with
  | [] => mret tt
  | item :: rest => f item;; for_each rest f
  end.

Definition variant_placeholder : OptionElement :=
  mkOption EmptyString true true "Select a variant".
Definition location_placeholder : OptionElement :=
  mkOption EmptyString true true "Select a location".
Definition variants_error_option : OptionElement :=
  mkOption EmptyString true false "Error loading variants".
Definition locations_error_option : OptionElement :=
  mkOption EmptyString true false "Error loading locations".

(** The option appended for a variant, and for a location. *)
Definition variant_option (v : Variant.t) : OptionElement :=
  let optionText :=
    Variant.product v +:+ " - " +:+ Variant.size v +:+ "/" +:+ Variant.color v
      +:+ " (" +:+ Variant.unique_sku v +:+ ")" in
  mkOption (pretty (Variant.id v)) false false optionText.

Definition location_option (loc : Location.t) : OptionElement :=
  mkOption (pretty (Location.id loc)) false false (Location.name loc).

Definition variants_url : string := API_BASE_URL +:+ "/api/variants/".
Definition locations_url : string := API_BASE_URL +:+ "/api/locations/".

(** The function is the same in [script.js] and in the earlier revision. *)
Definition fetchAndPopulateDropdowns : Prog unit :=
  attempt
    (variantsPromise ← fetch_variants variants_url;
     locationsPromise ← fetch_locations locations_url;
     '(variantsRes, locationsRes) ← await_all variantsPromise locationsPromise;
     (if negb (ok variantsRes) || negb (ok locationsRes)
      then raise (Error (Text "Failed to fetch form data"))
      else mret tt);;
     variants ← json_of variantsRes;
     locations ← json_of locationsRes;
     update_selects (set_variantSelect_innerHTML [variant_placeholder]);;
     for_each variants (λ v,
       update_selects (λ s,
         set_variantSelect_innerHTML (variantSelect_innerHTML s ++ [variant_option v]) s));;
     update_selects (set_locationSelect_innerHTML [location_placeholder]);;
     for_each locations (λ loc,
       update_selects (λ s,
         set_locationSelect_innerHTML (locationSelect_innerHTML s ++ [location_option loc]) s)))
    (λ error,
       call (ConsoleError "Error fetching dropdown data:" error);;
       update_selects (set_variantSelect_innerHTML [variants_error_option]);;
       update_selects (set_locationSelect_innerHTML [locations_error_option])).

(** Both responses arrived, are ok, and carry readable JSON. *)
Definition reference_data (srv : ReferenceServer)
  : option (list Variant.t * list Location.t) :=
  match head (variants_replies srv), head (locations_replies srv) with
  | Some (Resolves true (Some vs)), Some (Resolves true (Some ls)) => Some (vs, ls)
  | _, _ => None
  end.

Definition sample_variants : list Variant.t :=
  [ Variant.mk 3 "Oak Tee" "M" "Green" "OAK-M-GRN";
    Variant.mk 4 "Birch Hoodie" "L" "Grey" "BIR-L-GRY" ].

Definition sample_locations : list Location.t := [ Location.mk 1 "Warehouse" ].

Definition stale_selects : Selects :=
  mkSelects [variant_placeholder] [location_placeholder].

Definition reference_up : ReferenceServer :=
  mkReferenceServer [Resolves true (Some sample_variants)]
                    [Resolves true (Some sample_locations)].

(** The variants arrive; the locations request is refused. *)
Definition reference_half : ReferenceServer :=
  mkReferenceServer [Resolves true (Some sample_variants)] [Resolves false None].

End Dropdowns.

(* ===================================================================== *)
(** * More vocabulary for the ledger and the pages                        *)
(* ===================================================================== *)

Module Ledger.
Import Backend.

(** No statement of the request raises. *)
Definition clean (f : Faults) : bool :=
  negb (f OpGetOrCreate || f OpSaveStockLevel || f OpInsertMovement).

(** Every balance is the sum of the logged deltas of its key. *)
Definition ledger_consistent (db : Database) : Prop :=
  ∀ k, balance_of db k = ledger_sum k (movements db).

(** The movement that takes back what [m] brought. *)
Definition reversal (m : StockMovement) : StockMovement :=
  mkMovement (product_variant m) (location m) (- quantity_change m) (notes m).

Definition committed (m : StockMovement) : Request := mkRequest m Committed.

(** Request 0 runs its three statements, then request 1, and so on. *)
Definition one_by_one (first count : nat) : list nat :=
  flat_map (λ i, [i; i; i]) (seq first count).

(** The database after each of the movements was saved in turn, nothing
    failing. *)
Definition saved_in_turn (ms : list StockMovement) (db : Database) : Database :=
  fst (run_saves (map (λ m, (no_faults, m)) ms) db).

Definition elsewhere : StockMovement := mkMovement 2 1 4 "other variant".

Definition db_two_rows : Database :=
  mkDb {[ (1, 1) := 5; (2, 1) := 1 ]} [Scenario.opening; mkMovement 2 1 1 "found"].

End Ledger.

Module Pages.
Import Browser.

(** A listing that is already in code-unit order of product name. *)
Definition listing_in_order : list StockLevel :=
  [ClientScenario.birch; ClientScenario.cedar; ClientScenario.oak].

(** A page that shows an earlier listing. *)
Definition page_with_rows : Dom :=
  mkDom [DataRow "Elm Scarf" "One / Red" "Shop" "9"] EmptyString "none" "none"
        false Client.idle_label None ClientScenario.filled_form.

(** The POST is confirmed; the re-fetch is refused. *)
Definition server_post_only : Server :=
  mkServer [Resolves false None] [Resolves true (Some JNull)].

End Pages.

(* ===================================================================== *)
(** * The ledger                                                          *)
(* ===================================================================== *)

Module BackendTheory.
Import Backend Scenario.

Lemma faults_cases (f : Faults) :
  (∀ op, f op = false) ∨ (∃ op, f op = true).
Proof.
  destruct (f OpGetOrCreate) eqn:H1; [right; eauto|].
  destruct (f OpSaveStockLevel) eqn:H2; [right; eauto|].
  destruct (f OpInsertMovement) eqn:H3; [right; eauto|].
  left. by intros [].
Qed.

(** What the body of the transaction does when no statement raises. *)
Lemma save_body_ok (m : StockMovement) (f : Faults) (db : Database) :
  (∀ op, f op = false) → save_body m f db = (Ok tt, applied m db).
Proof.
  intros Hf. destruct db as [sl ms].
  unfold save_body, applied, balance_of, mbind, tx_mbind, tx_bind,
    get_or_create, save_stock_level, insert_movement, guarded.
  rewrite !Hf. cbn [stock_levels movements].
  destruct (sl !! key m) as [q|] eqn:Hq; cbn [stock_levels movements default].
  - by rewrite ?Hf.
  - rewrite ?Hf. cbn [stock_levels movements]. by rewrite insert_insert_eq.
Qed.

(** When some statement raises, the body raises at the first such
    statement. *)
Lemma save_body_raises (m : StockMovement) (f : Faults) (db : Database) :
  (∃ op, f op = true) →
  ∃ op db', f op = true ∧ save_body m f db = (Raised (DatabaseError op), db').
Proof.
  intros Hf.
  unfold save_body, mbind, tx_mbind, tx_bind,
    get_or_create, save_stock_level, insert_movement, guarded.
  destruct (f OpGetOrCreate) eqn:H1; [by eauto|].
  destruct (stock_levels db !! key m);
    (destruct (f OpSaveStockLevel) eqn:H2; [by eauto|]);
    (destruct (f OpInsertMovement) eqn:H3; [by eauto|]);
    destruct Hf as [[] Hop]; congruence.
Qed.

Lemma ledger_sum_app (k : Key) (ms ms' : list StockMovement) :
  ledger_sum k (ms ++ ms') = ledger_sum k ms + ledger_sum k ms'.
Proof.
  induction ms as [|m ms IH]; cbn; [done|].
  fold (ledger_sum k (ms ++ ms')) (ledger_sum k ms). case_decide; lia.
Qed.

Lemma balance_of_applied (m : StockMovement) (db : Database) (k : Key) :
  balance_of (applied m db) k =
  balance_of db k + (if decide (key m = k) then quantity_change m else 0).
Proof.
  unfold balance_of, applied. cbn [stock_levels].
  case_decide as Hk.
  - subst k. by rewrite lookup_insert_eq.
  - rewrite lookup_insert_ne by done. lia.
Qed.

Lemma save_ok (m : StockMovement) (f : Faults) (db : Database) :
  (∀ op, f op = false) → save m f db = (Ok tt, applied m db).
Proof. intros Hf. unfold save, atomic. by rewrite save_body_ok. Qed.

Lemma save_raises (m : StockMovement) (f : Faults) (db : Database) :
  (∃ op, f op = true) →
  ∃ op, f op = true ∧ save m f db = (Raised (DatabaseError op), db).
Proof.
  intros Hf. destruct (save_body_raises m f db Hf) as (op & db' & Hop & Hrun).
  exists op. split; [done|]. unfold save, atomic. by rewrite Hrun.
Qed.

(** ** C2 *)

(** C2.  [save] applies its two effects as one unit.  Whatever statements
    of the transaction raise, the call either returns normally with both
    effects in place (the balance row of the movement's key incremented
    by the delta, the movement appended to the log), which happens exactly
    when no statement raises, or it raises and leaves the database as it
    was before the call. *)
Theorem save_all_or_nothing (m : StockMovement) (f : Faults) (db : Database) :
  ((∀ op, f op = false) ∧ save m f db = (Ok tt, applied m db)) ∨
  (∃ op, f op = true ∧ save m f db = (Raised (DatabaseError op), db)).
Proof.
  destruct (faults_cases f) as [Hf|Hf].
  - left. split; [done|]. by apply save_ok.
  - right. by apply save_raises.
Qed.

(** Without the transaction the body can stop half way: the balance is
    written and the movement is not. *)
Example body_alone_leaves_partial_state :
  save_body restock insert_fails empty_db
  = (Raised (DatabaseError OpInsertMovement), mkDb {[ (1, 1) := 10 ]} []).
Proof. reflexivity. Qed.

Example save_rolls_back :
  save restock insert_fails empty_db
  = (Raised (DatabaseError OpInsertMovement), empty_db).
Proof. reflexivity. Qed.

(** ** C1 *)

(** The invariant of the ledger. *)
Lemma run_saves_invariant (ops : list (Faults * StockMovement)) (db : Database) :
  ∀ db' accepted, run_saves ops db = (db', accepted) →
    movements db' = movements db ++ accepted ∧
    ∀ k, balance_of db' k = balance_of db k + ledger_sum k accepted.
Proof.
  revert db. induction ops as [|[f m] ops IH]; intros db db' accepted Hrun.
  - cbn in Hrun. simplify_eq. split; [by rewrite app_nil_r|]. intros k. cbn. lia.
  - cbn [run_saves] in Hrun.
    destruct (faults_cases f) as [Hf|Hf];
      [pose proof (save_ok m f db Hf) as Hs
      |destruct (save_raises m f db Hf) as (op & _ & Hs)];
      rewrite Hs in Hrun.
    + destruct (run_saves ops (applied m db)) as [db'' acc] eqn:Hrest.
      simplify_eq. destruct (IH _ _ _ Hrest) as [Hms Hbal]. split.
      * rewrite Hms. cbn [applied movements]. by rewrite <-app_assoc.
      * intros k. rewrite Hbal, balance_of_applied. cbn [ledger_sum foldr].
        fold (ledger_sum k acc). case_decide; lia.
    + by apply IH.
Qed.

(** Calls one after the other.  Start from the empty database and let
    any number of requests call [save] in turn, each meeting any faults.
    Then the movement log holds exactly the accepted movements (those
    whose [save] returned normally), and for every (variant, location)
    key the stored quantity, counted as the baseline 0 where no row
    exists yet, is the sum of [quantity_change] over the accepted
    movements of that key.  Every prefix of a run is a run, so this holds
    after each call of such a run. *)
Theorem balance_is_sum_of_accepted_movements
    (ops : list (Faults * StockMovement)) (k : Key) :
  let '(db, accepted) := run_saves ops empty_db in
  movements db = accepted ∧ balance_of db k = ledger_sum k accepted.
Proof.
  destruct (run_saves ops empty_db) as [db accepted] eqn:Hrun.
  destruct (run_saves_invariant _ _ _ _ Hrun) as [Hms Hbal].
  split; [done|]. rewrite Hbal. unfold balance_of, empty_db. cbn.
  rewrite lookup_empty. cbn. lia.
Qed.

(** The scenario of the specification: +10 then -3 leaves 7 in one row. *)
Example ten_minus_three :
  let '(db, accepted) := run_saves [(no_faults, restock); (no_faults, sale)] empty_db in
  accepted = [restock; sale] ∧ stock_levels db = {[ (1, 1) := 7 ]}.
Proof. vm_compute. split; reflexivity. Qed.

(** ** Requests at once *)

(** The statements of a request, as steps of the system. *)
Lemma step_get_or_create db rs (i : nat) (m : StockMovement) (q : Z) :
  rs !! i = Some (mkRequest m AtGetOrCreate) →
  stock_levels db !! key m = Some q →
  step i (mkSystem db rs) = mkSystem db (<[i := mkRequest m (AtStockLevelSave q)]> rs).
Proof.
  intros Hr Hq. unfold step. cbn [requests shared]. rewrite Hr.
  unfold step_request, get_or_create, guarded, no_faults. cbn [pc movement].
  by rewrite Hq.
Qed.

Lemma step_stock_level_save db rs (i : nat) (m : StockMovement) (q : Z) :
  rs !! i = Some (mkRequest m (AtStockLevelSave q)) →
  step i (mkSystem db rs)
  = mkSystem (mkDb (<[key m := q + quantity_change m]> (stock_levels db)) (movements db))
             (<[i := mkRequest m AtSuperSave]> rs).
Proof. intros Hr. unfold step. cbn [requests shared]. by rewrite Hr. Qed.

Lemma step_super_save db rs (i : nat) (m : StockMovement) :
  rs !! i = Some (mkRequest m AtSuperSave) →
  step i (mkSystem db rs)
  = mkSystem (mkDb (stock_levels db) (movements db ++ [m]))
             (<[i := mkRequest m Committed]> rs).
Proof. intros Hr. unfold step. cbn [requests shared]. by rewrite Hr. Qed.

Ltac run_step lem :=
  match goal with
  | |- context [step ?i (mkSystem ?db ?rs)] =>
      erewrite (lem db rs i) by (reflexivity || eassumption)
  end.

(** Two requests for a key that has a row.  When both read before either
    writes, the second write stands alone: the balance moves by the
    second delta only, though both movements are logged. *)
Lemma interleaving_keeps_the_last_write_only
    (db : Database) (m1 m2 : StockMovement) (q : Z) :
  key m1 = key m2 →
  stock_levels db !! key m1 = Some q →
  let s := run_schedule interleaved (mkSystem db [submitted m1; submitted m2]) in
  all_committed s = true ∧
  movements (shared s) = movements db ++ [m1; m2] ∧
  balance_of (shared s) (key m1) = q + quantity_change m2.
Proof.
  intros Hk Hq.
  assert (stock_levels db !! key m2 = Some q) as Hq2 by (by rewrite <-Hk).
  unfold run_schedule, interleaved, submitted. cbn [foldl].
  run_step step_get_or_create. run_step step_get_or_create.
  run_step step_stock_level_save. run_step step_super_save.
  run_step step_stock_level_save. run_step step_super_save.
  split; [done|]. split; [cbn; by rewrite <-app_assoc|].
  unfold balance_of. cbn [shared stock_levels]. rewrite Hk. by rewrite lookup_insert_eq.
Qed.

(** One after the other, the balance moves by both deltas. *)
Lemma serial_keeps_both_writes
    (db : Database) (m1 m2 : StockMovement) (q : Z) :
  key m1 = key m2 →
  stock_levels db !! key m1 = Some q →
  let s := run_schedule serial (mkSystem db [submitted m1; submitted m2]) in
  all_committed s = true ∧
  movements (shared s) = movements db ++ [m1; m2] ∧
  balance_of (shared s) (key m1) = q + quantity_change m1 + quantity_change m2.
Proof.
  intros Hk Hq.
  unfold run_schedule, serial, submitted. cbn [foldl].
  run_step step_get_or_create.
  run_step step_stock_level_save. run_step step_super_save.
  erewrite (step_get_or_create _ _ 1 m2 (q + quantity_change m1));
    [|reflexivity|cbn [stock_levels]; rewrite <-Hk; by rewrite lookup_insert_eq].
  run_step step_stock_level_save. run_step step_super_save.
  split; [done|]. split; [cbn; by rewrite <-app_assoc|].
  unfold balance_of. cbn [shared stock_levels]. rewrite Hk. by rewrite lookup_insert_eq.
Qed.

(** ** C3 *)

(** C3.  Two requests for the key (1, 1), with deltas +10 and -3, arrive
    while the balance is 5.  Each runs [get_or_create] before the other
    has written; then the first writes and commits, then the second.
    Both commit and the log holds both movements, but the stored quantity
    is 2, not 5 + 10 - 3 = 12: the first delta is lost. *)
Theorem interleaved_saves_lose_a_delta :
  let s := run_schedule interleaved racing in
  all_committed s = true ∧
  movements (shared s) = [opening; restock; sale] ∧
  balance_of (shared s) (1, 1) = 2 ∧
  ledger_sum (1, 1) (movements (shared s)) = 12 ∧
  balance_of db_opening (1, 1) + (quantity_change restock + quantity_change sale) = 12.
Proof. vm_compute. repeat split; reflexivity. Qed.

(** The same two requests one after the other end at 12. *)
Example serial_saves_keep_both_deltas :
  let s := run_schedule serial racing in
  all_committed s = true ∧ balance_of (shared s) (1, 1) = 12.
Proof. vm_compute. split; reflexivity. Qed.

(** ** C4 *)





(** What the validation reads: signs and digits are integers, a fraction
    or words are not. *)
Example parse_int_samples :
  parse_int "12" = Some 12 ∧ parse_int "-3" = Some (-3) ∧ parse_int "0" = Some 0 ∧
  parse_int "1.5" = None ∧ parse_int "a dozen" = None ∧ parse_int "-" = None.
Proof. repeat split. Qed.

End BackendTheory.

(* ===================================================================== *)
(** * The client                                                          *)
(* ===================================================================== *)

Module ClientTheory.
Import Browser Observing ClientScenario.

Ltac js_unfold :=
  unfold Client.showLoading, Client.showEmptyState,
    try_catch_finally, try_finally, try_catch, console_error, Swal_fire, alert,
    movementForm_reset, new_FormData, read_dom, emit, update_dom,
    fetch_stock_levels, fetch_stock_movements, settle, response_json, throw,
    mbind, mret, js_mbind, js_mret, js_bind, js_ret.

Ltac js_run := js_unfold; cbn -[String.app array_sort forEach].

(** ** Running [fetchAndPopulateTable] *)

Lemma forEach_append_rows {A} (f : A → TableRow) (l : list A) (d : Dom) (s : Server)
    (tr : list Observation) :
  forEach l (λ item, let row := f item in append_row row) (mkWorld d s tr)
  = (Normal tt,
     mkWorld (set_stockTableBody_innerHTML (stockTableBody_innerHTML d ++ map f l) d) s tr).
Proof.
  revert d. induction l as [|x l IH]; intros d.
  - cbn. destruct d; cbn. by rewrite app_nil_r.
  - cbn [forEach]. unfold mbind, js_mbind, js_bind.
    cbn [append_row update_dom dom server trace].
    rewrite IH. destruct d; cbn. by rewrite <-app_assoc.
Qed.

(** The listing arrived. *)
Lemma table_loaded cmp d tr l rest posts :
  Client.fetchAndPopulateTable cmp
    (mkWorld d (mkServer (Resolves true (Some l) :: rest) posts) tr)
  = (Normal tt,
     mkWorld
       (shown (match l with
               | [] => set_emptyState_display "block"
                         (set_stockTableBody_innerHTML [] (loading_page d))
               | _ => set_stockTableBody_innerHTML
                        (map Client.row_of (array_sort (Client.by_product cmp) l))
                        (loading_page d)
               end))
       (mkServer rest posts)
       (tr ++ [mkObs (Fetch Client.stock_levels_url None) (loading_page d)])).
Proof.
  unfold Client.fetchAndPopulateTable. destruct l as [|x l].
  - reflexivity.
  - js_run. rewrite forEach_append_rows. reflexivity.
Qed.

(** The listing did not arrive: the error is logged and shown, the table
    keeps the rows it had. *)
Lemma table_failed cmp d tr gets posts e :
  load_error (head gets) = Some e →
  Client.fetchAndPopulateTable cmp (mkWorld d (mkServer gets posts) tr)
  = (Normal tt,
     mkWorld
       (shown (set_emptyState_display "block" (loading_page d)))
       (mkServer (tail gets) posts)
       (tr ++ [ mkObs (Fetch Client.stock_levels_url None) (loading_page d);
                mkObs (ConsoleError "Error fetching stock levels:" e) (loading_page d);
                mkObs (SwalFire Client.load_failed_popup) (loading_page d) ])).
Proof.
  intros He. unfold Client.fetchAndPopulateTable.
  destruct gets as [|[|[] [l|]] gets]; cbn in He; simplify_eq;
    js_run; by rewrite <-?app_assoc.
Qed.

(** In every case [fetchAndPopulateTable] returns normally, asks the
    server once, and leaves the submit button and the form alone. *)
Lemma table_frame cmp d srv tr :
  ∃ d' new,
    Client.fetchAndPopulateTable cmp (mkWorld d srv tr)
    = (Normal tt,
       mkWorld d'
         (mkServer (tail (stock_levels_replies srv)) (stock_movements_replies srv))
         (tr ++ mkObs (Fetch Client.stock_levels_url None) (loading_page d) :: new)) ∧
    same_controls d d' ∧
    Forall (λ o, same_controls d (page o) ∧ is_fetch (event o) = false) new.
Proof.
  destruct srv as [gets posts].
  destruct (load_error (head gets)) as [e|] eqn:He.
  - eexists _, _. split; [by apply table_failed|].
    split; [done|]. repeat constructor.
  - destruct gets as [|[|[] [l|]] gets]; cbn in He; simplify_eq.
    eexists _, []. split; [by apply table_loaded|].
    split; [by destruct l|]. constructor.
Qed.

(** ** Running [handleFormSubmit] *)

(** The write was not confirmed. *)
Lemma submit_failed cmp d gets posts e :
  submit_error EmptyString (head posts) = Some e →
  Client.handleFormSubmit cmp (page_with d (mkServer gets posts))
  = (Normal tt,
     mkWorld (idle_page (busy_page d)) (mkServer gets (tail posts))
       [ mkObs PreventDefault d;
         mkObs (post_of d) (busy_page d);
         mkObs (ConsoleError "Form submission error:" e) (busy_page d);
         mkObs (SwalFire Client.failure_popup) (busy_page d) ]).
Proof.
  intros He. unfold Client.handleFormSubmit, page_with.
  destruct posts as [|[|[] [j|]] posts]; cbn in He; simplify_eq; reflexivity.
Qed.

(** The write was confirmed. *)
Lemma submit_confirmed cmp d gets j posts :
  ∃ d' new,
    Client.handleFormSubmit cmp (page_with d (mkServer gets (Resolves true j :: posts)))
    = (Normal tt,
       mkWorld (idle_page d') (mkServer (tail gets) posts)
         ([ mkObs PreventDefault d;
            mkObs (post_of d) (busy_page d);
            mkObs (Fetch Client.stock_levels_url None)
                  (loading_page (cleared_page (busy_page d))) ]
          ++ new ++ [mkObs (SwalFire Client.success_popup) d'])) ∧
    same_controls (cleared_page (busy_page d)) d' ∧
    Forall (λ o, same_controls (cleared_page (busy_page d)) (page o)
                 ∧ is_fetch (event o) = false) new.
Proof.
  destruct (table_frame cmp (cleared_page (busy_page d)) (mkServer gets posts)
              [mkObs PreventDefault d; mkObs (post_of d) (busy_page d)])
    as (d' & new & Hrun & Hsame & Hnew).
  exists d', new. split; [|done].
  unfold Client.handleFormSubmit, page_with.
  js_unfold. cbn -[String.app Client.fetchAndPopulateTable].
  unfold post_of, busy_page, cleared_page in Hrun.
  cbn -[String.app Client.fetchAndPopulateTable] in Hrun.
  rewrite Hrun. reflexivity.
Qed.

(** The two cases cover every server. *)
Lemma post_cases (s : Server) :
  (post_confirmed s = true ∧
   ∃ j posts, stock_movements_replies s = Resolves true j :: posts) ∨
  (post_confirmed s = false ∧
   ∃ e, submit_error EmptyString (head (stock_movements_replies s)) = Some e).
Proof.
  unfold post_confirmed.
  destruct (stock_movements_replies s) as [|[|[] [j|]] posts]; cbn; eauto 6.
Qed.

(** Every run returns normally and starts with [preventDefault] and the
    POST. *)
Lemma submit_starts_with_post cmp d s :
  ∃ w' rest,
    Client.handleFormSubmit cmp (page_with d s) = (Normal tt, w') ∧
    trace w' = mkObs PreventDefault d :: mkObs (post_of d) (busy_page d) :: rest.
Proof.
  destruct s as [gets posts].
  destruct (post_cases (mkServer gets posts)) as [(_ & j & ps & Hp)|(_ & e & He)];
    cbn in *.
  - subst posts.
    destruct (submit_confirmed cmp d gets j ps) as (d' & new & Hrun & _).
    eexists _, _. split; [exact Hrun|reflexivity].
  - eexists _, _. split; [by apply submit_failed|reflexivity].
Qed.

(** ** [array.sort] *)

Section Sorting.
Context {A : Type} (compare : A → A → Z).

Lemma sort_insert_perm (x : A) (l : list A) : sort_insert compare x l ≡ₚ x :: l.
Proof.
  induction l as [|y l IH]; cbn; [done|].
  destruct (compare x y <=? 0); [done|].
  rewrite IH. apply Permutation_swap.
Qed.

Lemma array_sort_perm (l : list A) : array_sort compare l ≡ₚ l.
Proof.
  induction l as [|x l IH]; cbn; [done|].
  fold (array_sort compare l). by rewrite sort_insert_perm, IH.
Qed.

(** A consistent comparator: any two elements are comparable, and the
    order is transitive. *)
Hypothesis compare_total : ∀ a b, compare a b <= 0 ∨ compare b a <= 0.
Hypothesis compare_trans :
  ∀ a b c, compare a b <= 0 → compare b c <= 0 → compare a c <= 0.


End Sorting.




(** ** C7 *)



Example listing_as_displayed :
  stockTableBody_innerHTML
    (dom (snd (Client.fetchAndPopulateTable code_unit_compare
                 (page_with (page_at_rest filled_form) server_up))))
  = [ DataRow "Birch Hoodie" "L / Grey" "Shop" "2";
      DataRow "Cedar Cap" "One / Brown" "Warehouse" "-1";
      DataRow "Oak Tee" "M / Green" "Warehouse" "7" ].
Proof. vm_compute. reflexivity. Qed.

(** ** C8 *)

(** C8.  When the listing that [GET /api/stock-levels/] returns is empty,
    [fetchAndPopulateTable] ends with the empty-state element displayed
    and no rows in the table; when it is not empty, the empty-state
    element is hidden and the table holds one row per element.  In both
    cases the spinner is hidden and the table body is displayed again. *)
Theorem empty_listing_shows_empty_state
    (localeCompare : string → string → Z) (d : Dom) (l : list StockLevel)
    (rest : list (Reply (list StockLevel))) (posts : list (Reply json)) :
  let d' := dom (snd (Client.fetchAndPopulateTable localeCompare
                        (page_with d (mkServer (Resolves true (Some l) :: rest) posts)))) in
  (l = [] → emptyState_display d' = "block" ∧ stockTableBody_innerHTML d' = []) ∧
  (l ≠ [] → emptyState_display d' = "none" ∧
            stockTableBody_innerHTML d' ≠ [] ∧
            length (stockTableBody_innerHTML d') = length l) ∧
  loadingSpinner_display d' = "none" ∧
  stockTableBody_display d' = EmptyString.
Proof.
  unfold page_with. rewrite table_loaded. cbn [snd dom]. split; [|split; [|split]].
  - by intros ->.
  - intros Hl. destruct l as [|x l]; [done|].
    set (rows := map _ _).
    assert (length rows = length (x :: l)) as Hlen.
    { unfold rows. by rewrite length_map, array_sort_perm. }
    split; [done|]. split; [|done].
    cbn [shown loading_page stockTableBody_innerHTML set_stockTableBody_innerHTML
         set_stockTableBody_display set_loadingSpinner_display set_emptyState_display].
    intros Hnil. rewrite Hnil in Hlen. done.
  - by destruct l.
  - by destruct l.
Qed.

Lemma empty_listing_shows_empty_state_witness :
  (emptyState_display
     (dom (snd (Client.fetchAndPopulateTable code_unit_compare
                  (page_with (page_at_rest filled_form) server_empty_listing))))
   = "block") ∧
  (emptyState_display
     (dom (snd (Client.fetchAndPopulateTable code_unit_compare
                  (page_with (page_at_rest filled_form) server_up))))
   = "none").
Proof.
  split.
  - destruct (empty_listing_shows_empty_state code_unit_compare
                (page_at_rest filled_form) [] [] []) as (Hempty & _).
    apply Hempty. reflexivity.
  - destruct (empty_listing_shows_empty_state code_unit_compare
                (page_at_rest filled_form) listing [] [Resolves true (Some JNull)])
      as (_ & Hfull & _).
    apply Hfull. discriminate.
Defined.

(** ** C9 *)

(** C9.  Every run of [handleFormSubmit] returns normally.  Its first
    call out is [preventDefault]; the next is the POST, made with the
    submit button disabled and labelled as submitting, and at every later
    call of the run (the re-fetch, the logging, the popups) the button is
    still so, as it is when the [finally] block is reached.  That block
    ends the run on every path, successful or not, and leaves the button
    enabled with the idle label. *)
Theorem submit_button_busy_then_restored
    (localeCompare : string → string → Z) (d : Dom) (s : Server) :
  ∃ w' rest before_finally,
    Client.handleFormSubmit localeCompare (page_with d s) = (Normal tt, w') ∧
    trace w' = mkObs PreventDefault d :: mkObs (post_of d) (busy_page d) :: rest ∧
    Forall (λ o, button_busy Client.submitting_label (page o))
           (mkObs (post_of d) (busy_page d) :: rest) ∧
    button_busy Client.submitting_label before_finally ∧
    dom w' = idle_page before_finally ∧
    submitButton_disabled (dom w') = false ∧
    submitButton_innerHTML (dom w') = Client.idle_label.
Proof.
  destruct s as [gets posts].
  destruct (post_cases (mkServer gets posts)) as [(_ & j & ps & Hp)|(_ & e & He)];
    cbn in *.
  - subst posts.
    destruct (submit_confirmed localeCompare d gets j ps)
      as (d' & new & Hrun & Hsame & Hnew).
    exists (mkWorld (idle_page d') (mkServer (tail gets) ps)
              ([ mkObs PreventDefault d; mkObs (post_of d) (busy_page d);
                 mkObs (Fetch Client.stock_levels_url None)
                       (loading_page (cleared_page (busy_page d))) ]
               ++ new ++ [mkObs (SwalFire Client.success_popup) d'])).
    eexists _, d'. split; [exact Hrun|]. split; [reflexivity|].
    destruct Hsame as (Hdis & Hlabel & _).
    assert (button_busy Client.submitting_label d') as Hbusy
      by (split; [by rewrite Hdis | by rewrite Hlabel]).
    split; [|done].
    repeat first [apply Forall_cons; split | apply Forall_app; split | apply Forall_nil];
      try done.
    eapply Forall_impl; [exact Hnew|]. intros o [(Ho1 & Ho2 & _) _].
    split; [by rewrite Ho1 | by rewrite Ho2].
  - exists (mkWorld (idle_page (busy_page d)) (mkServer gets (tail posts))
              [ mkObs PreventDefault d; mkObs (post_of d) (busy_page d);
                mkObs (ConsoleError "Form submission error:" e) (busy_page d);
                mkObs (SwalFire Client.failure_popup) (busy_page d) ]).
    eexists _, (busy_page d). split; [by apply submit_failed|]. split; [reflexivity|].
    split; [|done]. by repeat constructor.
Qed.

(** ** C5 *)

(** C5.  In every run of [handleFormSubmit] the form still has its
    entries when the POST is sent.  When the POST is not confirmed (the
    fetch rejects, or the response is not ok, whatever its body) the form
    has the same entries at every call the run makes and when it ends. *)
Theorem form_kept_unless_post_confirmed
    (localeCompare : string → string → Z) (d : Dom) (s : Server) :
  let w' := snd (Client.handleFormSubmit localeCompare (page_with d s)) in
  (∃ rest, trace w' = mkObs PreventDefault d :: mkObs (post_of d) (busy_page d) :: rest
           ∧ movementForm (busy_page d) = movementForm d) ∧
  (post_confirmed s = false →
     movementForm (dom w') = movementForm d ∧
     Forall (λ o, movementForm (page o) = movementForm d) (trace w') ∧
     Forall (λ o, is_fetch (event o) = true → event o = post_of d) (trace w')).
Proof.
  cbn zeta. split.
  - destruct (submit_starts_with_post localeCompare d s) as (w' & rest & Hrun & Htr).
    rewrite Hrun. cbn [snd]. eauto.
  - intros Hno. destruct s as [gets posts].
    destruct (post_cases (mkServer gets posts)) as [[Hyes _]|(_ & e & He)];
      [congruence|].
    cbn in He. rewrite (submit_failed _ _ _ _ _ He). cbn [snd dom trace].
    split; [done|]. split; repeat constructor; done.
Qed.

Lemma form_kept_unless_post_confirmed_witness :
  movementForm
    (dom (snd (Client.handleFormSubmit code_unit_compare
                 (page_with (page_at_rest filled_form) server_rejecting))))
  = filled_form.
Proof.
  destruct (form_kept_unless_post_confirmed code_unit_compare
              (page_at_rest filled_form) server_rejecting) as (_ & Hkept).
  apply Hkept. reflexivity.
Defined.

(** ** C10 *)

Lemma FormData_get_field_value (fd : FormData) (field : string) (v : option string) :
  field_value fd field v → FormData_get field fd = v.
Proof.
  destruct v as [x|]; cbn.
  - intros (before & after & -> & Hnot).
    induction before as [|[k y] before IH]; cbn.
    + by rewrite decide_True.
    + cbn in Hnot. apply not_elem_of_cons in Hnot as [Hk Hnot].
      rewrite decide_False by done. by apply IH.
  - induction fd as [|[k y] fd IH]; cbn; [done|].
    intros [Hk Hnot]%not_elem_of_cons.
    rewrite decide_False by done. by apply IH.
Qed.

(** C10.  Let the form hold, under each of the names [product_variant],
    [location], [quantity_change] and [notes], a value (the value of the
    first entry of that name) or nothing.  Then, whatever these values
    are and whatever the server does, the second call of
    [handleFormSubmit] is a POST to the movements URL with a JSON content
    type whose body is an object of exactly these four properties, in
    this order, each holding the very string the form holds under that
    name ([null] where it holds nothing): a JSON string, never a number,
    and never checked.  No later call of the run is a POST. *)
Theorem post_body_is_four_raw_form_fields
    (localeCompare : string → string → Z) (d : Dom) (s : Server)
    (product_variant location quantity_change notes : option string) :
  field_value (entries (movementForm d)) "product_variant" product_variant →
  field_value (entries (movementForm d)) "location" location →
  field_value (entries (movementForm d)) "quantity_change" quantity_change →
  field_value (entries (movementForm d)) "notes" notes →
  ∃ at_post rest,
    trace (snd (Client.handleFormSubmit localeCompare (page_with d s)))
    = mkObs PreventDefault d
      :: mkObs (Fetch (Client.API_BASE_URL +:+ "/api/stock-movements/")
                  (Some (mkInit "POST" [("Content-Type", "application/json")]
                           (JObject
                              [ ("product_variant", from_option JString JNull product_variant);
                                ("location", from_option JString JNull location);
                                ("quantity_change", from_option JString JNull quantity_change);
                                ("notes", from_option JString JNull notes) ]))))
               at_post
      :: rest ∧
    Forall (λ o, is_post (event o) = false) rest.
Proof.
  intros Hpv Hloc Hqc Hnotes.
  apply FormData_get_field_value in Hpv, Hloc, Hqc, Hnotes.
  assert (post_of d
          = Fetch (Client.API_BASE_URL +:+ "/api/stock-movements/")
              (Some (mkInit "POST" [("Content-Type", "application/json")]
                       (JObject
                          [ ("product_variant", from_option JString JNull product_variant);
                            ("location", from_option JString JNull location);
                            ("quantity_change", from_option JString JNull quantity_change);
                            ("notes", from_option JString JNull notes) ])))) as Hpost.
  { unfold post_of, Client.post_init, Client.movement_data, JSON_stringify,
      Client.stock_movements_url.
    cbn [map]. by rewrite Hpv, Hloc, Hqc, Hnotes. }
  rewrite <-Hpost. destruct s as [gets posts].
  destruct (post_cases (mkServer gets posts)) as [(_ & j & ps & Hp)|(_ & e & He)].
  - cbn in Hp. subst posts.
    destruct (submit_confirmed localeCompare d gets j ps)
      as (d' & new & Hrun & _ & Hnew).
    rewrite Hrun. cbn [snd trace]. eexists _, _. split; [reflexivity|].
    constructor; [done|]. apply Forall_app. split; [|by repeat constructor].
    eapply Forall_impl; [exact Hnew|]. intros o [_ Ho].
    by destruct (event o) as [| ? []| | |].
  - cbn in He. rewrite (submit_failed _ _ _ _ _ He). cbn [snd trace].
    eexists _, _. split; [reflexivity|]. by repeat constructor.
Qed.

Lemma post_body_is_four_raw_form_fields_witness :
  ∃ at_post rest,
    trace (snd (Client.handleFormSubmit code_unit_compare
                  (page_with (page_at_rest odd_form) server_down)))
    = mkObs PreventDefault (page_at_rest odd_form)
      :: mkObs (Fetch (Client.API_BASE_URL +:+ "/api/stock-movements/")
                  (Some (mkInit "POST" [("Content-Type", "application/json")]
                           (JObject
                              [ ("product_variant", JString "3");
                                ("location", JString "1");
                                ("quantity_change", JString "a dozen");
                                ("notes", JString EmptyString) ]))))
               at_post
      :: rest ∧
    Forall (λ o, is_post (event o) = false) rest.
Proof.
  apply (post_body_is_four_raw_form_fields code_unit_compare
           (page_at_rest odd_form) server_down
           (Some "3") (Some "1") (Some "a dozen") (Some EmptyString)).
  - exists [], [ ("location", "1"); ("quantity_change", "a dozen");
                 ("notes", EmptyString) ].
    split; [reflexivity | compute_done].
  - exists [ ("product_variant", "3") ],
           [ ("quantity_change", "a dozen"); ("notes", EmptyString) ].
    split; [reflexivity | compute_done].
  - exists [ ("product_variant", "3"); ("location", "1") ],
           [ ("notes", EmptyString) ].
    split; [reflexivity | compute_done].
  - exists [ ("product_variant", "3"); ("location", "1");
             ("quantity_change", "a dozen") ], [].
    split; [reflexivity | compute_done].
Defined.

(** Text that is no number goes out as it was typed. *)
Example odd_quantity_is_sent_as_typed :
  trace (snd (Client.handleFormSubmit code_unit_compare
                (page_with (page_at_rest odd_form) server_down))) !! 1%nat
  = Some (mkObs
            (Fetch "https://oldtree-api.onrender.com/api/stock-movements/"
               (Some (mkInit "POST" [("Content-Type", "application/json")]
                        (JObject [ ("product_variant", JString "3");
                                   ("location", JString "1");
                                   ("quantity_change", JString "a dozen");
                                   ("notes", JString EmptyString) ]))))
            (busy_page (page_at_rest odd_form))).
Proof. vm_compute. reflexivity. Qed.

End ClientTheory.

(* ===================================================================== *)
(** * The earlier revision, for comparison                                *)
(* ===================================================================== *)

Module LegacyTheory.
Import Browser Observing ClientScenario.

Lemma legacy_table_loaded d tr l rest posts :
  Legacy.fetchAndPopulateTable
    (mkWorld d (mkServer (Resolves true (Some l) :: rest) posts) tr)
  = (Normal tt,
     mkWorld
       (set_stockTableBody_innerHTML
          (match l with [] => [Legacy.no_data_row] | _ => map Legacy.row_of l end) d)
       (mkServer rest posts)
       (tr ++ [mkObs (Fetch Legacy.stock_levels_url None) d])).
Proof.
  unfold Legacy.fetchAndPopulateTable. destruct l as [|x l].
  - reflexivity.
  - ClientTheory.js_unfold. cbn -[String.app forEach].
    rewrite ClientTheory.forEach_append_rows. reflexivity.
Qed.

Lemma legacy_table_failed d tr gets posts e :
  load_error (head gets) = Some e →
  Legacy.fetchAndPopulateTable (mkWorld d (mkServer gets posts) tr)
  = (Normal tt,
     mkWorld (set_stockTableBody_innerHTML [Legacy.load_failed_row] d)
       (mkServer (tail gets) posts)
       (tr ++ [ mkObs (Fetch Legacy.stock_levels_url None) d;
                mkObs (ConsoleError "Error fetching stock levels:" e) d ])).
Proof.
  intros He. unfold Legacy.fetchAndPopulateTable.
  destruct gets as [|[|[] [l|]] gets]; cbn in He; simplify_eq;
    ClientTheory.js_unfold; cbn -[String.app]; by rewrite <-?app_assoc.
Qed.

Lemma legacy_table_frame d srv tr :
  ∃ d' new,
    Legacy.fetchAndPopulateTable (mkWorld d srv tr)
    = (Normal tt,
       mkWorld d'
         (mkServer (tail (stock_levels_replies srv)) (stock_movements_replies srv))
         (tr ++ mkObs (Fetch Legacy.stock_levels_url None) d :: new)) ∧
    same_controls d d' ∧
    Forall (λ o, same_controls d (page o) ∧ is_fetch (event o) = false
                 ∧ is_popup (event o) = false) new.
Proof.
  destruct srv as [gets posts].
  destruct (load_error (head gets)) as [e|] eqn:He.
  - eexists _, _. split; [by apply legacy_table_failed|].
    split; [done|]. repeat constructor.
  - destruct gets as [|[|[] [l|]] gets]; cbn in He; simplify_eq.
    eexists _, []. split; [by apply legacy_table_loaded|].
    split; [done|]. constructor.
Qed.

(** The earlier revision shows the rows in the order of the response. *)
Lemma legacy_rows_follow_the_response d l rest posts :
  l ≠ [] →
  stockTableBody_innerHTML
    (dom (snd (Legacy.fetchAndPopulateTable
                 (page_with d (mkServer (Resolves true (Some l) :: rest) posts)))))
  = map Legacy.row_of l.
Proof.
  intros Hl. unfold page_with. rewrite legacy_table_loaded. by destruct l.
Qed.

Example legacy_listing_as_displayed :
  stockTableBody_innerHTML
    (dom (snd (Legacy.fetchAndPopulateTable
                 (page_with (page_at_rest filled_form) server_up))))
  = [ DataRow "Oak Tee" "Size: M, Color: Green" "Warehouse" "7";
      DataRow "Birch Hoodie" "Size: L, Color: Grey" "Shop" "2";
      DataRow "Cedar Cap" "Size: One, Color: Brown" "Warehouse" "-1" ].
Proof. vm_compute. reflexivity. Qed.

(** An empty listing puts a message row in the table. *)
Lemma legacy_empty_listing_row d rest posts :
  stockTableBody_innerHTML
    (dom (snd (Legacy.fetchAndPopulateTable
                 (page_with d (mkServer (Resolves true (Some []) :: rest) posts)))))
  = [Legacy.no_data_row].
Proof. reflexivity. Qed.

Lemma legacy_submit_failed d gets posts e :
  submit_error "Failed to submit movement: " (head posts) = Some e →
  Legacy.handleFormSubmit (page_with d (mkServer gets posts))
  = (Normal tt,
     mkWorld (legacy_idle_page (legacy_busy_page d)) (mkServer gets (tail posts))
       [ mkObs PreventDefault d;
         mkObs (legacy_post_of d) (legacy_busy_page d);
         mkObs (ConsoleError "Form submission error:" e) (legacy_busy_page d);
         mkObs (Alert Legacy.failure_alert) (legacy_busy_page d) ]).
Proof.
  intros He. unfold Legacy.handleFormSubmit, page_with.
  destruct posts as [|[|[] [j|]] posts]; cbn in He; simplify_eq; reflexivity.
Qed.

(** A confirmed submission resets the form and re-fetches, and then says
    nothing: this revision has no success popup. *)
Lemma legacy_submit_confirmed d gets j posts :
  ∃ d' new,
    Legacy.handleFormSubmit (page_with d (mkServer gets (Resolves true j :: posts)))
    = (Normal tt,
       mkWorld (legacy_idle_page d') (mkServer (tail gets) posts)
         ([ mkObs PreventDefault d;
            mkObs (legacy_post_of d) (legacy_busy_page d);
            mkObs (Fetch Legacy.stock_levels_url None)
                  (cleared_page (legacy_busy_page d)) ]
          ++ new)) ∧
    same_controls (cleared_page (legacy_busy_page d)) d' ∧
    Forall (λ o, is_popup (event o) = false) new.
Proof.
  destruct (legacy_table_frame (cleared_page (legacy_busy_page d)) (mkServer gets posts)
              [mkObs PreventDefault d; mkObs (legacy_post_of d) (legacy_busy_page d)])
    as (d' & new & Hrun & Hsame & Hnew).
  exists d', new. split; [|split; [done|]].
  - unfold Legacy.handleFormSubmit, page_with.
    ClientTheory.js_unfold. cbn -[String.app Legacy.fetchAndPopulateTable].
    unfold legacy_post_of, legacy_busy_page, cleared_page in Hrun.
    cbn -[String.app Legacy.fetchAndPopulateTable] in Hrun.
    rewrite Hrun. reflexivity.
  - eapply Forall_impl; [exact Hnew|]. by intros o (_ & _ & Ho).
Qed.

Lemma legacy_confirmed_submission_shows_no_popup d gets j posts :
  Forall (λ o, is_popup (event o) = false)
    (trace (snd (Legacy.handleFormSubmit
                   (page_with d (mkServer gets (Resolves true j :: posts)))))).
Proof.
  destruct (legacy_submit_confirmed d gets j posts) as (d' & new & Hrun & _ & Hnew).
  rewrite Hrun. cbn [snd trace]. apply Forall_app. split; [|done].
  by repeat constructor.
Qed.

(** Like the current script, the earlier one keeps the form when the
    POST is not confirmed and re-enables the button when it ends. *)
Lemma legacy_form_kept_and_button_restored d s :
  let w' := snd (Legacy.handleFormSubmit (page_with d s)) in
  submitButton_disabled (dom w') = false ∧
  submitButton_aria_busy (dom w') = None ∧
  (post_confirmed s = false → movementForm (dom w') = movementForm d).
Proof.
  cbn zeta. destruct s as [gets posts].
  destruct (submit_error "Failed to submit movement: " (head posts)) as [e|] eqn:He.
  - by rewrite (legacy_submit_failed _ _ _ _ He).
  - destruct posts as [|[|[] [j|]] posts]; cbn in He; simplify_eq;
      edestruct legacy_submit_confirmed as (d' & new & Hrun & _ & _);
      rewrite Hrun; done.
Qed.

End LegacyTheory.

(* ===================================================================== *)
(** * More about the ledger                                               *)
(* ===================================================================== *)

Module LedgerTheory.
Import Backend Scenario Ledger.

Lemma clean_spec (f : Faults) : clean f = true ↔ ∀ op, f op = false.
Proof.
  unfold clean. split.
  - intros H op. destruct (f OpGetOrCreate) eqn:?, (f OpSaveStockLevel) eqn:?,
      (f OpInsertMovement) eqn:?; try discriminate. by destruct op.
  - intros H. by rewrite !H.
Qed.

Lemma dirty_spec (f : Faults) : clean f = false → ∃ op, f op = true.
Proof.
  intros Hf. destruct (BackendTheory.faults_cases f) as [H|H]; [|done].
  apply clean_spec in H. congruence.
Qed.

(** What one call does, by whether its statements raise. *)
Lemma save_by_clean (m : StockMovement) (f : Faults) (db : Database) :
  save m f db =
  if clean f then (Ok tt, applied m db)
  else (Raised (DatabaseError
                  (if f OpGetOrCreate then OpGetOrCreate
                   else if f OpSaveStockLevel then OpSaveStockLevel
                   else OpInsertMovement)), db).
Proof.
  destruct (clean f) eqn:Hc.
  - apply BackendTheory.save_ok. by apply clean_spec.
  - unfold save, atomic, save_body, mbind, tx_mbind, tx_bind,
      get_or_create, save_stock_level, insert_movement, guarded.
    unfold clean in Hc.
    destruct (f OpGetOrCreate); [done|].
    destruct (stock_levels db !! key m);
      (destruct (f OpSaveStockLevel); [done|]);
      (destruct (f OpInsertMovement); [done|discriminate]).
Qed.

(** The accepted movements are those of the clean requests, and the
    final database is the one they alone produce. *)
Lemma run_saves_clean (ops : list (Faults * StockMovement)) (db : Database) :
  run_saves ops db
  = (foldl (λ db m, applied m db) db (filter (λ op, clean op.1) ops).*2,
     (filter (λ op, clean op.1) ops).*2).
Proof.
  revert db. induction ops as [|[f m] ops IH]; intros db; [done|].
  cbn [run_saves]. rewrite save_by_clean, filter_cons. cbn [fst].
  destruct (clean f) eqn:Hc.
  - rewrite decide_True by done. by rewrite IH.
  - rewrite decide_False by (by intros []). by rewrite IH.
Qed.

Lemma ledger_sum_perm (k : Key) (ms ms' : list StockMovement) :
  ms ≡ₚ ms' → ledger_sum k ms = ledger_sum k ms'.
Proof.
  induction 1 as [|m ms ms' _ IH|m1 m2 ms|ms1 ms2 ms3 _ IH1 _ IH2]; cbn.
  - done.
  - fold (ledger_sum k ms) (ledger_sum k ms'). by rewrite IH.
  - fold (ledger_sum k ms). repeat case_decide; lia.
  - congruence.
Qed.

(** X1.  A call of [save] reads and writes only the balance row of its
    own (variant, location) key: whatever the outcome, the row of every
    other key is as it was, present or absent. *)
Theorem save_leaves_other_keys_alone
    (m : StockMovement) (f : Faults) (db : Database) (k : Key) :
  k ≠ key m →
  stock_levels (save m f db).2 !! k = stock_levels db !! k.
Proof.
  intros Hk. rewrite save_by_clean. destruct (clean f); [|done].
  cbn. by rewrite lookup_insert_ne.
Qed.

Lemma save_leaves_other_keys_alone_witness :
  (2, 1) ≠ key restock ∧
  stock_levels (save restock no_faults db_two_rows).2 !! (2, 1)
  = stock_levels db_two_rows !! (2, 1).
Proof.
  split; [discriminate|].
  apply (save_leaves_other_keys_alone restock no_faults db_two_rows (2, 1)).
  discriminate.
Defined.

(** X2.  The consistency of the ledger is an invariant of [save]: from
    any database in which every balance is the sum of the logged deltas
    of its key, any run of requests, failing or not, ends in such a
    database. *)
Theorem consistent_ledger_stays_consistent
    (ops : list (Faults * StockMovement)) (db : Database) :
  ledger_consistent db → ledger_consistent (run_saves ops db).1.
Proof.
  intros Hdb k.
  destruct (run_saves ops db) as [db' accepted] eqn:Hrun.
  destruct (BackendTheory.run_saves_invariant _ _ _ _ Hrun) as [Hms Hbal].
  cbn [fst]. by rewrite Hbal, Hms, BackendTheory.ledger_sum_app, Hdb.
Qed.

Lemma db_opening_consistent : ledger_consistent db_opening.
Proof.
  intros k. unfold balance_of.
  destruct (decide ((1, 1) = k)) as [<-|Hk]; [reflexivity|].
  unfold db_opening. cbn [stock_levels movements ledger_sum foldr].
  rewrite lookup_singleton_ne by done.
  rewrite decide_False by exact Hk. done.
Qed.

Lemma consistent_ledger_stays_consistent_witness :
  ledger_consistent
    (run_saves [(no_faults, restock); (insert_fails, sale); (no_faults, nothing)]
               db_opening).1.
Proof.
  apply (consistent_ledger_stays_consistent _ db_opening), db_opening_consistent.
Defined.

(** X3.  A request whose [save] raised leaves no trace: the accepted
    movements are exactly those of the requests none of whose statements
    raised, in order, and the final database is the one that these
    requests alone produce. *)
Theorem failed_requests_leave_no_trace
    (ops : list (Faults * StockMovement)) (db : Database) :
  (run_saves ops db).2 = (filter (λ op, clean op.1) ops).*2 ∧
  run_saves ops db = run_saves (filter (λ op, clean op.1) ops) db.
Proof.
  rewrite (run_saves_clean (filter _ ops)), list_filter_filter.
  rewrite run_saves_clean. split; [done|].
  do 2 f_equal; f_equal; apply list_filter_iff; tauto.
Qed.

(** X4.  The balances do not depend on the order of the requests: two runs
    of the same requests in different orders, from the same database,
    end with the same quantity for every key. *)
Theorem balances_do_not_depend_on_order
    (ops ops' : list (Faults * StockMovement)) (db : Database) (k : Key) :
  ops ≡ₚ ops' →
  balance_of (run_saves ops db).1 k = balance_of (run_saves ops' db).1 k.
Proof.
  intros Hperm.
  destruct (run_saves ops db) as [db1 acc1] eqn:H1.
  destruct (run_saves ops' db) as [db2 acc2] eqn:H2.
  destruct (BackendTheory.run_saves_invariant _ _ _ _ H1) as [_ Hb1].
  destruct (BackendTheory.run_saves_invariant _ _ _ _ H2) as [_ Hb2].
  cbn [fst]. rewrite Hb1, Hb2. f_equal. apply ledger_sum_perm.
  rewrite run_saves_clean in H1, H2. simplify_eq. by rewrite Hperm.
Qed.

Lemma balances_do_not_depend_on_order_witness :
  balance_of (run_saves [(no_faults, restock); (no_faults, sale)] db_opening).1 (1, 1)
  = balance_of (run_saves [(no_faults, sale); (no_faults, restock)] db_opening).1 (1, 1).
Proof.
  apply (balances_do_not_depend_on_order
           [(no_faults, restock); (no_faults, sale)]
           [(no_faults, sale); (no_faults, restock)] db_opening (1, 1)).
  apply Permutation_swap.
Defined.

(** X5.  Saving a movement and then the opposite movement for the same
    key brings every balance back to what it was.  The log keeps both
    movements, and the key has a row afterwards even if it had none. *)
Theorem reversal_restores_balances (m : StockMovement) (db : Database) :
  let db' := saved_in_turn [m; reversal m] db in
  (∀ k, balance_of db' k = balance_of db k) ∧
  movements db' = movements db ++ [m; reversal m] ∧
  stock_levels db' !! key m = Some (balance_of db (key m)).
Proof.
  unfold saved_in_turn. cbn [map run_saves].
  rewrite !BackendTheory.save_ok by done. cbn [fst].
  split; [|split].
  - intros k. rewrite !BackendTheory.balance_of_applied.
    change (key (reversal m)) with (key m). cbn [reversal quantity_change].
    case_decide; lia.
  - cbn. by rewrite <-app_assoc.
  - unfold applied at 1. cbn [stock_levels]. change (key (reversal m)) with (key m).
    rewrite lookup_insert_eq, BackendTheory.balance_of_applied.
    rewrite decide_True by done. cbn [reversal quantity_change]. f_equal. lia.
Qed.

Lemma applied_keeps_rows (ms : list StockMovement) (db : Database) (k : Key) :
  is_Some (stock_levels db !! k) →
  is_Some (stock_levels (foldl (λ db m, applied m db) db ms) !! k).
Proof.
  revert db. induction ms as [|m ms IH]; intros db Hk; [done|].
  cbn [foldl]. apply IH. unfold applied. cbn [stock_levels].
  destruct (decide (key m = k)) as [->|Hne].
  - rewrite lookup_insert_eq. eauto.
  - by rewrite lookup_insert_ne.
Qed.

(** X20.  A run of requests only adds: the movements logged before it
    are still the first entries of the log, unchanged and in the same
    order, and every key that had a balance row still has one. *)
Theorem run_never_removes
    (ops : list (Faults * StockMovement)) (db : Database) (k : Key) :
  movements db `prefix_of` movements (run_saves ops db).1 ∧
  (is_Some (stock_levels db !! k) →
   is_Some (stock_levels (run_saves ops db).1 !! k)).
Proof.
  split.
  - destruct (run_saves ops db) as [db' accepted] eqn:Hrun.
    destruct (BackendTheory.run_saves_invariant _ _ _ _ Hrun) as [Hms _].
    cbn [fst]. rewrite Hms. by apply prefix_app_r.
  - rewrite run_saves_clean. cbn [fst]. apply applied_keeps_rows.
Qed.

Lemma run_never_removes_witness :
  is_Some (stock_levels
             (run_saves [(no_faults, sale); (insert_fails, restock)] db_two_rows).1
           !! (2, 1)).
Proof.
  apply (run_never_removes [(no_faults, sale); (insert_fails, restock)] db_two_rows (2, 1)).
  eexists. reflexivity.
Defined.

End LedgerTheory.

Module StepTheory.
Import Backend Scenario Ledger.

(** The first statement of a request, whether or not the row exists. *)
Lemma step_get_or_create_any db rs (i : nat) (m : StockMovement) :
  rs !! i = Some (submitted m) →
  ∃ db1,
    step i (mkSystem db rs)
    = mkSystem db1 (<[i := mkRequest m (AtStockLevelSave (balance_of db (key m)))]> rs) ∧
    movements db1 = movements db ∧
    <[key m := balance_of db (key m) + quantity_change m]> (stock_levels db1)
    = <[key m := balance_of db (key m) + quantity_change m]> (stock_levels db).
Proof.
  intros Hr. unfold step. cbn [requests shared]. rewrite Hr.
  unfold submitted, step_request, get_or_create, guarded, no_faults, balance_of.
  cbn [pc movement].
  destruct (stock_levels db !! key m) as [q|]; cbn [default].
  - by exists db.
  - eexists. split; [reflexivity|]. cbn [movements stock_levels].
    split; [done|]. by rewrite insert_insert_eq.
Qed.

(** The three statements of one request, run without interruption, do
    what [save] does. *)
Lemma three_steps db rs (i : nat) (m : StockMovement) :
  rs !! i = Some (submitted m) →
  run_schedule [i; i; i] (mkSystem db rs)
  = mkSystem (applied m db) (<[i := committed m]> rs).
Proof.
  intros Hr. pose proof (lookup_lt_Some _ _ _ Hr) as Hi.
  destruct (step_get_or_create_any db rs i m Hr) as (db1 & H1 & Hms & Hsl).
  unfold run_schedule. cbn [foldl]. rewrite H1.
  rewrite (BackendTheory.step_stock_level_save db1 _ i m (balance_of db (key m)))
    by (by apply list_lookup_insert_eq).
  rewrite (BackendTheory.step_super_save _ _ i m)
    by (apply list_lookup_insert_eq; by rewrite length_insert).
  rewrite !list_insert_insert_eq. cbn [stock_levels movements].
  unfold applied, committed. by rewrite Hsl, Hms.
Qed.

Lemma insert_at_end_of_prefix {A} (l1 l2 : list A) (x y : A) :
  <[length l1 := x]> (l1 ++ y :: l2) = l1 ++ x :: l2.
Proof. induction l1 as [|z l1 IH]; cbn; [done|]. f_equal. exact IH. Qed.

Lemma run_schedule_app (l1 l2 : list nat) (s : System) :
  run_schedule (l1 ++ l2) s = run_schedule l2 (run_schedule l1 s).
Proof. apply foldl_app. Qed.

Lemma one_by_one_from (ms : list StockMovement) :
  ∀ (finished : list Request) (db : Database),
    run_schedule (one_by_one (length finished) (length ms))
                 (mkSystem db (finished ++ map submitted ms))
    = mkSystem (foldl (λ db m, applied m db) db ms) (finished ++ map committed ms).
Proof.
  induction ms as [|m ms IH]; intros finished db; [done|].
  change (one_by_one (length finished) (length (m :: ms)))
    with ([length finished; length finished; length finished]
            ++ one_by_one (S (length finished)) (length ms)).
  rewrite run_schedule_app. cbn [map].
  rewrite (three_steps db _ (length finished) m) by (by rewrite list_lookup_middle).
  rewrite insert_at_end_of_prefix.
  specialize (IH (finished ++ [committed m]) (applied m db)).
  rewrite length_app, Nat.add_1_r, <-!app_assoc in IH. exact IH.
Qed.

Lemma all_clean (ms : list StockMovement) :
  (filter (λ op, clean op.1) (map (λ m, (no_faults, m)) ms)).*2 = ms.
Proof.
  induction ms as [|m ms IH]; [done|].
  cbn [map]. rewrite filter_cons_True by done. cbn [fmap list_fmap snd].
  f_equal. exact IH.
Qed.

(** X7.  Any number of requests that run one after the other, each
    through its three statements without interruption, leave the
    database that saving their movements in turn leaves, with every
    request committed. *)
Theorem requests_one_by_one_agree_with_save
    (ms : list StockMovement) (db : Database) :
  run_schedule (one_by_one 0 (length ms)) (mkSystem db (map submitted ms))
  = mkSystem (saved_in_turn ms db) (map committed ms).
Proof.
  pose proof (one_by_one_from ms [] db) as Hrun. cbn [app length] in Hrun.
  rewrite Hrun. f_equal.
  unfold saved_in_turn. rewrite LedgerTheory.run_saves_clean.
  cbn [fst]. by rewrite all_clean.
Qed.

(** X8.  Two requests for different keys, both with a row, interleaved
    so that both read before either writes, lose nothing: each balance
    moves by its own delta and both movements are logged. *)
Theorem interleaving_on_different_keys_loses_nothing
    (db : Database) (m1 m2 : StockMovement) (q1 q2 : Z) :
  key m1 ≠ key m2 →
  stock_levels db !! key m1 = Some q1 →
  stock_levels db !! key m2 = Some q2 →
  let s := run_schedule interleaved (mkSystem db [submitted m1; submitted m2]) in
  all_committed s = true ∧
  movements (shared s) = movements db ++ [m1; m2] ∧
  balance_of (shared s) (key m1) = q1 + quantity_change m1 ∧
  balance_of (shared s) (key m2) = q2 + quantity_change m2.
Proof.
  intros Hk Hq1 Hq2.
  unfold run_schedule, interleaved, submitted. cbn [foldl].
  BackendTheory.run_step BackendTheory.step_get_or_create.
  BackendTheory.run_step BackendTheory.step_get_or_create.
  BackendTheory.run_step BackendTheory.step_stock_level_save.
  BackendTheory.run_step BackendTheory.step_super_save.
  BackendTheory.run_step BackendTheory.step_stock_level_save.
  BackendTheory.run_step BackendTheory.step_super_save.
  split; [done|]. split; [cbn; by rewrite <-app_assoc|].
  unfold balance_of. cbn [shared stock_levels]. split.
  - rewrite lookup_insert_ne by done. by rewrite lookup_insert_eq.
  - by rewrite lookup_insert_eq.
Qed.

Lemma interleaving_on_different_keys_loses_nothing_witness :
  balance_of
    (shared (run_schedule interleaved
               (mkSystem db_two_rows [submitted restock; submitted elsewhere])))
    (key restock) = 5 + quantity_change restock.
Proof.
  apply (interleaving_on_different_keys_loses_nothing db_two_rows restock elsewhere 5 1);
    [discriminate | reflexivity | reflexivity].
Defined.

End StepTheory.

(* ===================================================================== *)
(** * More about the client                                               *)
(* ===================================================================== *)

Module ClientPaths.
Import Browser Observing ClientScenario Pages.

(** X9.  [fetchAndPopulateTable] returns normally whatever the server
    does.  It makes exactly one request, while the spinner is shown and
    the table body hidden, and ends with the spinner hidden and the table
    body shown again; it never touches the submit button or the form. *)
Theorem table_load_always_settles
    (localeCompare : string → string → Z) (d : Dom) (s : Server) :
  ∃ w' rest,
    Client.fetchAndPopulateTable localeCompare (page_with d s) = (Normal tt, w') ∧
    trace w' = mkObs (Fetch Client.stock_levels_url None) (loading_page d) :: rest ∧
    Forall (λ o, is_fetch (event o) = false) rest ∧
    loadingSpinner_display (loading_page d) = "block" ∧
    stockTableBody_display (loading_page d) = "none" ∧
    loadingSpinner_display (dom w') = "none" ∧
    stockTableBody_display (dom w') = EmptyString ∧
    same_controls d (dom w').
Proof.
  destruct s as [gets posts]. unfold page_with.
  destruct (load_error (head gets)) as [e|] eqn:He.
  - rewrite (ClientTheory.table_failed _ _ _ _ _ _ He).
    eexists _, _. split; [reflexivity|]. split; [reflexivity|].
    split; [by repeat constructor|done].
  - destruct gets as [|[|[] [l|]] gets]; cbn in He; simplify_eq.
    rewrite ClientTheory.table_loaded.
    eexists _, []. split; [reflexivity|]. split; [reflexivity|].
    split; [constructor|]. by destruct l.
Qed.

(** X10.  When the listing does not arrive (the fetch rejects, the
    response is not ok, or its body is not JSON), [fetchAndPopulateTable]
    logs the error, shows the load-failure popup and displays the empty
    state; the rows the table held before stay in it. *)
Theorem failed_load_keeps_rows_and_shows_error
    (localeCompare : string → string → Z) (d : Dom) (s : Server) (e : JsError) :
  load_error (head (stock_levels_replies s)) = Some e →
  ∃ w',
    Client.fetchAndPopulateTable localeCompare (page_with d s) = (Normal tt, w') ∧
    map event (trace w')
    = [ Fetch Client.stock_levels_url None;
        ConsoleError "Error fetching stock levels:" e;
        SwalFire Client.load_failed_popup ] ∧
    stockTableBody_innerHTML (dom w') = stockTableBody_innerHTML d ∧
    emptyState_display (dom w') = "block" ∧
    stockTableBody_display (dom w') = EmptyString.
Proof.
  destruct s as [gets posts]. cbn [stock_levels_replies]. intros He.
  unfold page_with. rewrite (ClientTheory.table_failed _ _ _ _ _ _ He).
  eexists. split; [reflexivity|]. done.
Qed.

Lemma failed_load_keeps_rows_and_shows_error_witness :
  ∃ w',
    Client.fetchAndPopulateTable code_unit_compare (page_with page_with_rows server_down)
    = (Normal tt, w') ∧
    map event (trace w')
    = [ Fetch Client.stock_levels_url None;
        ConsoleError "Error fetching stock levels:" FetchFailed;
        SwalFire Client.load_failed_popup ] ∧
    stockTableBody_innerHTML (dom w') = stockTableBody_innerHTML page_with_rows ∧
    emptyState_display (dom w') = "block" ∧
    stockTableBody_display (dom w') = EmptyString.
Proof.
  apply (failed_load_keeps_rows_and_shows_error code_unit_compare
           page_with_rows server_down FetchFailed).
  reflexivity.
Defined.

(** X11.  A load that succeeds replaces what an earlier load left: after
    two runs of [fetchAndPopulateTable], the second of which receives a
    listing, the page is the one a single run receiving that listing
    gives, whatever the first run received. *)
Theorem refresh_replaces_rows
    (localeCompare : string → string → Z) (d : Dom)
    (first : Reply (list StockLevel)) (l : list StockLevel)
    (gets : list (Reply (list StockLevel))) (posts : list (Reply json)) :
  dom (Client.fetchAndPopulateTable localeCompare
         (Client.fetchAndPopulateTable localeCompare
            (page_with d (mkServer (first :: Resolves true (Some l) :: gets) posts))).2).2
  = dom (Client.fetchAndPopulateTable localeCompare
           (page_with d (mkServer (Resolves true (Some l) :: gets) posts))).2.
Proof.
  unfold page_with.
  destruct (load_error (Some first)) as [e|] eqn:He.
  - rewrite (ClientTheory.table_failed _ _ _ (first :: _) _ _ He). cbn [snd tail].
    rewrite !ClientTheory.table_loaded. cbn [snd dom]. destruct d, l; reflexivity.
  - destruct first as [|[] [l0|]]; cbn in He; simplify_eq.
    repeat (rewrite ClientTheory.table_loaded; cbn [snd]).
    cbn [dom]. destruct d, l0, l; reflexivity.
Qed.

Lemma array_sort_in_order {A} (compare : A → A → Z) (l : list A) :
  Sorted (λ a b, compare a b <= 0) l → array_sort compare l = l.
Proof.
  induction 1 as [|x l Hl IH Hx]; [done|].
  cbn [array_sort foldr]. fold (array_sort compare l). rewrite IH.
  destruct Hx as [|y l' Hxy]; [done|]. cbn [sort_insert].
  by destruct (Z.leb_spec (compare x y) 0); [|lia].
Qed.

(** X12.  A listing that arrives already in order of product name is
    shown row for row as it was sent; elements that compare equal keep
    the order of the response. *)
Theorem listing_in_order_is_shown_as_sent
    (localeCompare : string → string → Z) (d : Dom) (l : list StockLevel)
    (gets : list (Reply (list StockLevel))) (posts : list (Reply json)) :
  Sorted (product_le localeCompare) l →
  stockTableBody_innerHTML
    (dom (Client.fetchAndPopulateTable localeCompare
            (page_with d (mkServer (Resolves true (Some l) :: gets) posts))).2)
  = map Client.row_of l.
Proof.
  intros Hl. unfold page_with. rewrite ClientTheory.table_loaded. cbn [snd dom].
  rewrite (array_sort_in_order (Client.by_product localeCompare) l Hl).
  by destruct l.
Qed.

Lemma listing_in_order_is_shown_as_sent_witness :
  stockTableBody_innerHTML
    (dom (Client.fetchAndPopulateTable code_unit_compare
            (page_with (page_at_rest filled_form)
               (mkServer (Resolves true (Some listing_in_order) :: []) []))).2)
  = map Client.row_of listing_in_order.
Proof.
  apply (listing_in_order_is_shown_as_sent code_unit_compare).
  repeat constructor; unfold product_le; vm_compute; discriminate.
Defined.

(** ** More about [handleFormSubmit] *)

(** A confirmed submission, by what its re-fetch does. *)
Lemma submit_confirmed_via_table cmp d gets j posts d' srv' tr' :
  Client.fetchAndPopulateTable cmp
    (mkWorld (cleared_page (busy_page d)) (mkServer gets posts)
       [mkObs PreventDefault d; mkObs (post_of d) (busy_page d)])
  = (Normal tt, mkWorld d' srv' tr') →
  Client.handleFormSubmit cmp (page_with d (mkServer gets (Resolves true j :: posts)))
  = (Normal tt,
     mkWorld (idle_page d') srv' (tr' ++ [mkObs (SwalFire Client.success_popup) d'])).
Proof.
  intros Hrun. unfold Client.handleFormSubmit, page_with.
  ClientTheory.js_unfold. cbn -[String.app Client.fetchAndPopulateTable].
  unfold post_of, busy_page, cleared_page in Hrun.
  cbn -[String.app Client.fetchAndPopulateTable] in Hrun.
  rewrite Hrun. reflexivity.
Qed.

(** X13.  When the POST is not confirmed, [handleFormSubmit] logs the
    error and shows the failure popup as its last call; it makes no
    second request, and the stock table, its visibility and the replies
    the server still holds for the listing are as before. *)
Theorem failed_submission_shows_error_and_leaves_table
    (localeCompare : string → string → Z) (d : Dom) (s : Server) :
  post_confirmed s = false →
  ∃ w' e,
    Client.handleFormSubmit localeCompare (page_with d s) = (Normal tt, w') ∧
    map event (trace w')
    = [ PreventDefault; post_of d;
        ConsoleError "Form submission error:" e;
        SwalFire Client.failure_popup ] ∧
    stockTableBody_innerHTML (dom w') = stockTableBody_innerHTML d ∧
    stockTableBody_display (dom w') = stockTableBody_display d ∧
    emptyState_display (dom w') = emptyState_display d ∧
    loadingSpinner_display (dom w') = loadingSpinner_display d ∧
    stock_levels_replies (server w') = stock_levels_replies s.
Proof.
  intros Hno. destruct s as [gets posts].
  destruct (ClientTheory.post_cases (mkServer gets posts)) as [[Hyes _]|(_ & e & He)];
    [congruence|].
  cbn in He. eexists _, e. split; [by apply ClientTheory.submit_failed|]. done.
Qed.

Lemma failed_submission_shows_error_and_leaves_table_witness :
  ∃ w' e,
    Client.handleFormSubmit code_unit_compare (page_with page_with_rows server_rejecting)
    = (Normal tt, w') ∧
    map event (trace w')
    = [ PreventDefault; post_of page_with_rows;
        ConsoleError "Form submission error:" e;
        SwalFire Client.failure_popup ] ∧
    stockTableBody_innerHTML (dom w') = stockTableBody_innerHTML page_with_rows ∧
    stockTableBody_display (dom w') = stockTableBody_display page_with_rows ∧
    emptyState_display (dom w') = emptyState_display page_with_rows ∧
    loadingSpinner_display (dom w') = loadingSpinner_display page_with_rows ∧
    stock_levels_replies (server w') = stock_levels_replies server_rejecting.
Proof.
  apply (failed_submission_shows_error_and_leaves_table code_unit_compare
           page_with_rows server_rejecting).
  reflexivity.
Defined.

(** X14.  When the POST is confirmed and the re-fetch receives a listing,
    [handleFormSubmit] makes four calls ([preventDefault], the POST, the
    GET, the success popup) and no error popup, and ends with the table
    holding the rows of the fresh listing sorted by product name, the
    empty state shown exactly when that listing is empty. *)
Theorem confirmed_submission_shows_fresh_listing
    (localeCompare : string → string → Z) (d : Dom) (l : list StockLevel)
    (gets : list (Reply (list StockLevel))) (j : option json) (posts : list (Reply json)) :
  ∃ w',
    Client.handleFormSubmit localeCompare
      (page_with d (mkServer (Resolves true (Some l) :: gets) (Resolves true j :: posts)))
    = (Normal tt, w') ∧
    map event (trace w')
    = [ PreventDefault; post_of d; Fetch Client.stock_levels_url None;
        SwalFire Client.success_popup ] ∧
    stockTableBody_innerHTML (dom w')
    = map Client.row_of (array_sort (Client.by_product localeCompare) l) ∧
    emptyState_display (dom w') = (if decide (l = []) then "block" else "none") ∧
    server w' = mkServer gets posts.
Proof.
  eexists. split.
  - apply submit_confirmed_via_table, ClientTheory.table_loaded.
  - cbn [trace dom server]. split; [done|]. by destruct l.
Qed.

(** X15.  When the POST is confirmed but the re-fetch fails, the user is
    shown the load-failure popup and then the success popup; the form is
    reset and the table keeps the rows it had. *)
Theorem confirmed_submission_with_failed_refetch
    (localeCompare : string → string → Z) (d : Dom)
    (gets : list (Reply (list StockLevel))) (j : option json) (posts : list (Reply json))
    (e : JsError) :
  load_error (head gets) = Some e →
  ∃ w',
    Client.handleFormSubmit localeCompare
      (page_with d (mkServer gets (Resolves true j :: posts)))
    = (Normal tt, w') ∧
    map event (trace w')
    = [ PreventDefault; post_of d; Fetch Client.stock_levels_url None;
        ConsoleError "Error fetching stock levels:" e;
        SwalFire Client.load_failed_popup;
        SwalFire Client.success_popup ] ∧
    stockTableBody_innerHTML (dom w') = stockTableBody_innerHTML d ∧
    emptyState_display (dom w') = "block" ∧
    movementForm (dom w') = reset (movementForm d).
Proof.
  intros He. eexists. split.
  - by apply submit_confirmed_via_table, ClientTheory.table_failed.
  - done.
Qed.

Lemma confirmed_submission_with_failed_refetch_witness :
  ∃ w',
    Client.handleFormSubmit code_unit_compare (page_with page_with_rows server_post_only)
    = (Normal tt, w') ∧
    map event (trace w')
    = [ PreventDefault; post_of page_with_rows; Fetch Client.stock_levels_url None;
        ConsoleError "Error fetching stock levels:" (Error (Text "Network response was not ok"));
        SwalFire Client.load_failed_popup;
        SwalFire Client.success_popup ] ∧
    stockTableBody_innerHTML (dom w') = stockTableBody_innerHTML page_with_rows ∧
    emptyState_display (dom w') = "block" ∧
    movementForm (dom w') = reset (movementForm page_with_rows).
Proof.
  apply (confirmed_submission_with_failed_refetch code_unit_compare page_with_rows
           [Resolves false None] (Some JNull) []).
  reflexivity.
Defined.

End ClientPaths.

(* ===================================================================== *)
(** * More about the earlier revision                                     *)
(* ===================================================================== *)

Module LegacyPaths.
Import Browser Observing ClientScenario Pages.

(** X16.  In the earlier revision, what the table holds after
    [fetchAndPopulateTable] depends on the reply alone: the rows of the
    listing in the order of the response, a single [No stock data found.]
    row for an empty listing, a single failure row when the listing did
    not arrive.  Rows of an earlier load never stay, and the function
    returns normally in every case. *)
Theorem legacy_table_shows_rows_or_one_message (d : Dom) (s : Server) :
  ∃ w',
    Legacy.fetchAndPopulateTable (page_with d s) = (Normal tt, w') ∧
    stockTableBody_innerHTML (dom w')
    = match head (stock_levels_replies s) with
      | Some (Resolves true (Some [])) => [Legacy.no_data_row]
      | Some (Resolves true (Some l)) => map Legacy.row_of l
      | _ => [Legacy.load_failed_row]
      end ∧
    same_controls d (dom w').
Proof.
  destruct s as [gets posts]. unfold page_with.
  destruct (load_error (head gets)) as [e|] eqn:He.
  - rewrite (LegacyTheory.legacy_table_failed _ _ _ _ _ He).
    eexists. split; [reflexivity|]. split; [|done].
    by destruct gets as [|[|[] [l|]] gets].
  - destruct gets as [|[|[] [l|]] gets]; cbn in He; simplify_eq.
    rewrite LegacyTheory.legacy_table_loaded.
    eexists. split; [reflexivity|]. split; [|done]. by destruct l.
Qed.

(** X17.  In the earlier revision a submission that is not confirmed
    logs the error and raises an [alert] as its last call; it makes no
    second request and leaves the table as it was. *)
Theorem legacy_failed_submission_alerts (d : Dom) (s : Server) :
  post_confirmed s = false →
  ∃ w' e,
    Legacy.handleFormSubmit (page_with d s) = (Normal tt, w') ∧
    map event (trace w')
    = [ PreventDefault; legacy_post_of d;
        ConsoleError "Form submission error:" e;
        Alert Legacy.failure_alert ] ∧
    stockTableBody_innerHTML (dom w') = stockTableBody_innerHTML d ∧
    stock_levels_replies (server w') = stock_levels_replies s.
Proof.
  intros Hno. destruct s as [gets posts]. unfold post_confirmed in Hno. cbn in Hno.
  destruct (submit_error "Failed to submit movement: " (head posts)) as [e|] eqn:He.
  - eexists _, e. split; [by apply LegacyTheory.legacy_submit_failed|]. done.
  - by destruct posts as [|[|[] [j|]] posts].
Qed.

Lemma legacy_failed_submission_alerts_witness :
  ∃ w' e,
    Legacy.handleFormSubmit (page_with page_with_rows server_down) = (Normal tt, w') ∧
    map event (trace w')
    = [ PreventDefault; legacy_post_of page_with_rows;
        ConsoleError "Form submission error:" e;
        Alert Legacy.failure_alert ] ∧
    stockTableBody_innerHTML (dom w') = stockTableBody_innerHTML page_with_rows ∧
    stock_levels_replies (server w') = stock_levels_replies server_down.
Proof.
  apply (legacy_failed_submission_alerts page_with_rows server_down). reflexivity.
Defined.

(** A confirmed submission of the earlier revision, with the pages of
    its calls. *)
Lemma legacy_submit_confirmed_pages d gets j posts :
  ∃ d' new,
    Legacy.handleFormSubmit (page_with d (mkServer gets (Resolves true j :: posts)))
    = (Normal tt,
       mkWorld (legacy_idle_page d') (mkServer (tail gets) posts)
         ([ mkObs PreventDefault d;
            mkObs (legacy_post_of d) (legacy_busy_page d);
            mkObs (Fetch Legacy.stock_levels_url None)
                  (cleared_page (legacy_busy_page d)) ]
          ++ new)) ∧
    same_controls (cleared_page (legacy_busy_page d)) d' ∧
    Forall (λ o, same_controls (cleared_page (legacy_busy_page d)) (page o)
                 ∧ is_fetch (event o) = false ∧ is_popup (event o) = false) new.
Proof.
  destruct (LegacyTheory.legacy_table_frame (cleared_page (legacy_busy_page d))
              (mkServer gets posts)
              [mkObs PreventDefault d; mkObs (legacy_post_of d) (legacy_busy_page d)])
    as (d' & new & Hrun & Hsame & Hnew).
  exists d', new. split; [|done].
  unfold Legacy.handleFormSubmit, page_with.
  ClientTheory.js_unfold. cbn -[String.app Legacy.fetchAndPopulateTable].
  unfold legacy_post_of, legacy_busy_page, cleared_page in Hrun.
  cbn -[String.app Legacy.fetchAndPopulateTable] in Hrun.
  rewrite Hrun. reflexivity.
Qed.

(** X21.  In the earlier revision a confirmed submission resets the form
    and re-fetches the listing, and tells the user nothing: after the
    POST and the GET the run makes no further request and raises no popup
    or alert, whatever the re-fetch receives. *)
Theorem legacy_confirmed_submission_is_silent
    (d : Dom) (gets : list (Reply (list StockLevel))) (j : option json)
    (posts : list (Reply json)) :
  ∃ w' new,
    Legacy.handleFormSubmit (page_with d (mkServer gets (Resolves true j :: posts)))
    = (Normal tt, w') ∧
    map event (trace w')
    = [PreventDefault; legacy_post_of d; Fetch Legacy.stock_levels_url None]
      ++ map event new ∧
    Forall (λ o, is_fetch (event o) = false ∧ is_popup (event o) = false) new ∧
    movementForm (dom w') = reset (movementForm d).
Proof.
  destruct (legacy_submit_confirmed_pages d gets j posts)
    as (d' & new & Hrun & Hsame & Hnew).
  eexists _, new. split; [exact Hrun|]. cbn [trace dom]. split; [done|]. split.
  - eapply Forall_impl; [exact Hnew|]. by intros o (_ & ? & ?).
  - destruct Hsame as (_ & _ & _ & Hform). exact Hform.
Qed.

(** X22.  In the earlier revision every run of [handleFormSubmit]
    returns normally; the POST and every later call are made with the
    submit button disabled and marked [aria-busy], and the run ends with
    the button enabled, the mark removed and the label untouched. *)
Theorem legacy_button_and_busy_mark_restored (d : Dom) (s : Server) :
  ∃ w' rest,
    Legacy.handleFormSubmit (page_with d s) = (Normal tt, w') ∧
    trace w' = mkObs PreventDefault d
               :: mkObs (legacy_post_of d) (legacy_busy_page d) :: rest ∧
    Forall (λ o, submitButton_disabled (page o) = true ∧
                 submitButton_aria_busy (page o) = Some "true")
           (mkObs (legacy_post_of d) (legacy_busy_page d) :: rest) ∧
    submitButton_disabled (dom w') = false ∧
    submitButton_aria_busy (dom w') = None ∧
    submitButton_innerHTML (dom w') = submitButton_innerHTML d.
Proof.
  destruct s as [gets posts].
  destruct (submit_error "Failed to submit movement: " (head posts)) as [e|] eqn:He.
  - eexists _, _. split; [by apply LegacyTheory.legacy_submit_failed|].
    split; [reflexivity|]. split; [by repeat constructor|done].
  - destruct posts as [|[|[] j] posts]; try (by destruct j); cbn in He; simplify_eq.
    destruct (legacy_submit_confirmed_pages d gets j posts)
      as (d' & new & Hrun & Hsame & Hnew).
    eexists _, _. split; [exact Hrun|]. split; [reflexivity|].
    destruct Hsame as (Hdis & Hlabel & Haria & _).
    split; [|split; [done|split; [done|]]].
    + repeat first [apply Forall_cons; split | apply Forall_app; split | apply Forall_nil];
        try done.
      eapply Forall_impl; [exact Hnew|]. intros o [(Ho1 & _ & Ho3 & _) _].
      split; [by rewrite Ho1 | by rewrite Ho3].
    + cbn [dom legacy_idle_page set_submitButton_disabled set_submitButton_aria_busy
           submitButton_innerHTML]. by rewrite Hlabel.
Qed.

End LegacyPaths.

(* ===================================================================== *)
(** * The selection inputs                                                *)
(* ===================================================================== *)

Module DropdownsTheory.
Import Browser Dropdowns.

Ltac prog_unfold :=
  unfold attempt, call, update_selects, fetch_variants, fetch_locations, await_all,
    json_of, raise, settle, mbind, mret, prog_mbind, prog_mret, prog_bind, prog_ret.

Lemma for_each_variant_options (vs : list Variant.t) (s : Selects)
    (srv : ReferenceServer) (c : list Event) :
  for_each vs (λ v,
    update_selects (λ s,
      set_variantSelect_innerHTML (variantSelect_innerHTML s ++ [variant_option v]) s))
    (mkFormWorld s srv c)
  = (Normal tt,
     mkFormWorld
       (set_variantSelect_innerHTML (variantSelect_innerHTML s ++ map variant_option vs) s)
       srv c).
Proof.
  revert s. induction vs as [|v vs IH]; intros s.
  - cbn. destruct s; cbn. by rewrite app_nil_r.
  - cbn [for_each]. unfold mbind, prog_mbind, prog_bind.
    cbn [update_selects selects reference_server calls].
    rewrite IH. destruct s; cbn. by rewrite <-app_assoc.
Qed.

Lemma for_each_location_options (ls : list Location.t) (s : Selects)
    (srv : ReferenceServer) (c : list Event) :
  for_each ls (λ loc,
    update_selects (λ s,
      set_locationSelect_innerHTML (locationSelect_innerHTML s ++ [location_option loc]) s))
    (mkFormWorld s srv c)
  = (Normal tt,
     mkFormWorld
       (set_locationSelect_innerHTML (locationSelect_innerHTML s ++ map location_option ls) s)
       srv c).
Proof.
  revert s. induction ls as [|loc ls IH]; intros s.
  - cbn. destruct s; cbn. by rewrite app_nil_r.
  - cbn [for_each]. unfold mbind, prog_mbind, prog_bind.
    cbn [update_selects selects reference_server calls].
    rewrite IH. destruct s; cbn. by rewrite <-app_assoc.
Qed.

Ltac run_populated :=
  unfold fetchAndPopulateDropdowns, form_with;
  prog_unfold; cbn -[String.app for_each];
  rewrite for_each_variant_options; cbn -[String.app for_each];
  rewrite for_each_location_options.

(** X18.  When both reference requests are answered ok with readable
    JSON, [fetchAndPopulateDropdowns] replaces the options of each select
    by its placeholder followed by one option per element of the
    response, in the order of the response: the id as value, and as text
    the variant's product, size, color and SKU, or the location's name.
    Empty responses leave the placeholders alone. *)
Theorem dropdowns_populated
    (s : Selects) (vs : list Variant.t) (ls : list Location.t)
    (vr : list (Reply (list Variant.t))) (lr : list (Reply (list Location.t))) :
  fetchAndPopulateDropdowns
    (form_with s (mkReferenceServer (Resolves true (Some vs) :: vr)
                                    (Resolves true (Some ls) :: lr)))
  = (Normal tt,
     mkFormWorld
       (mkSelects (variant_placeholder :: map variant_option vs)
                  (location_placeholder :: map location_option ls))
       (mkReferenceServer vr lr)
       [Fetch variants_url None; Fetch locations_url None]).
Proof.
  by run_populated.
Qed.

(** X19.  [fetchAndPopulateDropdowns] returns normally whatever the
    server does, and always sends both requests before it looks at either
    answer.  The two selects end either both populated, when both answers
    are ok and readable, or both holding their single disabled error
    option, with the error logged: a failure of one request also blanks
    the select of the other. *)
Theorem dropdowns_all_or_nothing (s : Selects) (srv : ReferenceServer) :
  ∃ w',
    fetchAndPopulateDropdowns (form_with s srv) = (Normal tt, w') ∧
    match reference_data srv with
    | Some (vs, ls) =>
        selects w' = mkSelects (variant_placeholder :: map variant_option vs)
                               (location_placeholder :: map location_option ls) ∧
        calls w' = [Fetch variants_url None; Fetch locations_url None]
    | None =>
        selects w' = mkSelects [variants_error_option] [locations_error_option] ∧
        ∃ e, calls w' = [ Fetch variants_url None; Fetch locations_url None;
                          ConsoleError "Error fetching dropdown data:" e ]
    end.
Proof.
  destruct srv as [vr lr]. unfold reference_data. cbn [variants_replies locations_replies].
  destruct vr as [|[|[] [vs|]] vr], lr as [|[|[] [ls|]] lr]; cbn [head];
    try (eexists; split; [reflexivity|]; split; [done|]; eexists; reflexivity).
  eexists. split; [by run_populated|]. done.
Qed.

End DropdownsTheory.

(* ===================================================================== *)
(** * The ledger under requests at once                                   *)
(* ===================================================================== *)

Module RaceTheory.
Import Backend Scenario Ledger.

(** C1.  The ledger invariant does not hold after every successful call.
    In a database where the balance of key (1, 1) is 5 and equals the sum
    of its logged deltas, two requests for that key, +10 and -3, each run
    [get_or_create] before the other has written; the first then writes
    and commits, then the second.  Both calls succeed, and afterwards the
    stored quantity is 2 while the deltas of the accepted movements sum
    to 12: the invariant is broken. *)
Theorem interleaved_saves_break_the_ledger_invariant :
  let s := run_schedule interleaved racing in
  ledger_consistent db_opening ∧
  all_committed s = true ∧
  balance_of (shared s) (1, 1) = 2 ∧
  ledger_sum (1, 1) (movements (shared s)) = 12 ∧
  ¬ ledger_consistent (shared s).
Proof.
  cbn zeta. split; [exact LedgerTheory.db_opening_consistent|].
  split; [reflexivity|]. split; [reflexivity|]. split; [reflexivity|].
  intros Hinv. specialize (Hinv (1, 1)). vm_compute in Hinv. discriminate.
Qed.

End RaceTheory.

(* ===================================================================== *)
(** * A confirmed submission, in both revisions                           *)
(* ===================================================================== *)

Module SubmissionTheory.
Import Browser Observing ClientScenario Pages.

(** C6, as stated, fails on the earlier revision of the script: a
    submission that the server confirms, followed by a re-fetch that
    receives the listing, ends without any popup or alert. *)
Lemma legacy_confirmed_submission_acknowledges_nothing :
  post_confirmed server_up = true ∧
  (Legacy.handleFormSubmit (page_with (page_at_rest filled_form) server_up)).1
  = Normal tt ∧
  map event
    (trace (Legacy.handleFormSubmit (page_with (page_at_rest filled_form) server_up)).2)
  = [ PreventDefault; legacy_post_of (page_at_rest filled_form);
      Fetch Legacy.stock_levels_url None ].
Proof. split; [reflexivity|]. split; reflexivity. Qed.

(** C6, amended.  When the POST is confirmed, both revisions of
    [handleFormSubmit] return normally after making their calls in this
    order: the POST, with the form still holding its entries; then the
    [GET /api/stock-levels/] of the re-fetch, with the form's entries
    already replaced by its initial ones, which they remain to the end.
    [script.js] then shows, after whatever the re-fetch logs or shows and
    with no further request, the success popup, which has no confirm
    button and a timer of 1500 ms, as its last call.  The earlier
    revision makes no further request either and shows no popup or
    alert. *)
Theorem confirmed_submission_clears_then_refetches
    (localeCompare : string → string → Z) (d : Dom) (s : Server) :
  post_confirmed s = true →
  (∃ w' d_get mid d_ack,
     Client.handleFormSubmit localeCompare (page_with d s) = (Normal tt, w') ∧
     trace w' = [ mkObs PreventDefault d; mkObs (post_of d) (busy_page d) ]
                ++ [ mkObs (Fetch Client.stock_levels_url None) d_get ]
                ++ mid
                ++ [ mkObs (SwalFire Client.success_popup) d_ack ] ∧
     entries (movementForm (busy_page d)) = entries (movementForm d) ∧
     entries (movementForm d_get) = initial_entries (movementForm d) ∧
     Forall (λ o, is_fetch (event o) = false ∧
                  entries (movementForm (page o)) = initial_entries (movementForm d))
            mid ∧
     entries (movementForm d_ack) = initial_entries (movementForm d) ∧
     entries (movementForm (dom w')) = initial_entries (movementForm d) ∧
     icon Client.success_popup = "success" ∧
     showConfirmButton Client.success_popup = Some false ∧
     timer Client.success_popup = Some 1500) ∧
  (∃ w' d_get rest,
     Legacy.handleFormSubmit (page_with d s) = (Normal tt, w') ∧
     trace w' = [ mkObs PreventDefault d; mkObs (legacy_post_of d) (legacy_busy_page d) ]
                ++ [ mkObs (Fetch Legacy.stock_levels_url None) d_get ]
                ++ rest ∧
     entries (movementForm (legacy_busy_page d)) = entries (movementForm d) ∧
     entries (movementForm d_get) = initial_entries (movementForm d) ∧
     Forall (λ o, is_fetch (event o) = false ∧ is_popup (event o) = false ∧
                  entries (movementForm (page o)) = initial_entries (movementForm d))
            rest ∧
     entries (movementForm (dom w')) = initial_entries (movementForm d)).
Proof.
  intros Hyes. destruct s as [gets posts].
  destruct (ClientTheory.post_cases (mkServer gets posts))
    as [(_ & j & ps & Hp)|[Hno _]]; [|congruence].
  cbn in Hp. subst posts. split.
  - destruct (ClientTheory.submit_confirmed localeCompare d gets j ps)
      as (d' & new & Hrun & Hsame & Hnew).
    eexists _, _, new, d'. split; [exact Hrun|]. split; [reflexivity|].
    destruct Hsame as (_ & _ & _ & Hform).
    split; [done|]. split; [done|]. split.
    { eapply Forall_impl; [exact Hnew|]. intros o [(_ & _ & _ & Ho) Hf].
      split; [done|]. by rewrite Ho. }
    split; [by rewrite Hform|]. split; [|done].
    cbn [dom]. change (movementForm (idle_page d')) with (movementForm d').
    by rewrite Hform.
  - destruct (LegacyPaths.legacy_submit_confirmed_pages d gets j ps)
      as (d' & new & Hrun & Hsame & Hnew).
    eexists _, _, new. split; [exact Hrun|]. split; [reflexivity|].
    destruct Hsame as (_ & _ & _ & Hform).
    split; [done|]. split; [done|]. split.
    { eapply Forall_impl; [exact Hnew|]. intros o ((_ & _ & _ & Ho) & Hf & Hp).
      split; [done|]. split; [done|]. by rewrite Ho. }
    cbn [dom]. change (movementForm (legacy_idle_page d')) with (movementForm d').
    by rewrite Hform.
Qed.

Lemma confirmed_submission_clears_then_refetches_witness :
  (∃ w', Client.handleFormSubmit code_unit_compare
           (page_with (page_at_rest filled_form) server_up) = (Normal tt, w') ∧
         entries (movementForm (dom w'))
         = [ ("quantity_change", EmptyString); ("notes", EmptyString) ]) ∧
  (∃ w', Legacy.handleFormSubmit (page_with (page_at_rest filled_form) server_up)
         = (Normal tt, w') ∧
         entries (movementForm (dom w'))
         = [ ("quantity_change", EmptyString); ("notes", EmptyString) ]).
Proof.
  destruct (confirmed_submission_clears_then_refetches code_unit_compare
              (page_at_rest filled_form) server_up)
    as [(w1 & ? & ? & ? & Hrun1 & _ & _ & _ & _ & _ & Hend1 & _)
        (w2 & ? & ? & Hrun2 & _ & _ & _ & _ & Hend2)];
    [reflexivity|].
  split; [exists w1 | exists w2]; (split; [assumption|]).
  - rewrite Hend1. reflexivity.
  - rewrite Hend2. reflexivity.
Defined.

End SubmissionTheory.
